(** * sharepoint_wrapper: the raw Graph client ([_raw.py])

    A shallow embedding of the five operations of [sharepoint_wrapper/_raw.py]
    ([get_graph_token], [get_site], [get_drives], [get_children], [get_file])
    and the properties of their request / parse / error-translation template.

    Python values that come out of [json.loads] are an inductive type [py];
    exceptions are values of [exn]; every operation is a computation in a
    small monad [io] that reads the runtime ([World]: transport, clock,
    decoders), records the HTTP requests it hands to the transport, and either
    returns or raises.  The decorator [log_execution] is applied to none of the
    five operations and is left out. *)

From Stdlib Require Import Strings.String Strings.Ascii Strings.Byte List ZArith Bool Lia.
From Stdlib Require Import Floats.
From Stdlib Require DecimalString.
Import ListNotations.
Local Open Scope string_scope.
Local Open Scope Z_scope.
#[local] Set Warnings "-register-all".

(** ** Python values *)

(** What [json.loads] can return: [None], [bool], [int], [float], [str],
    [list] and [dict] with string keys.  A [dict] is kept as its items in
    insertion order; [json.loads] never yields a repeated key, and lookups
    take the first item of a key. *)
Inductive py : Type :=
| PyNone
| PyBool (b : bool)
| PyInt (z : Z)
| PyFloat (f : float)
| PyStr (s : string)
| PyList (l : list py)
| PyDict (d : list (string * py)).

Definition dict : Type := list (string * py).

(** [type(v).__name__] *)
Definition type_name (v : py) : string :=
  match v with
  | PyNone => "NoneType"
  | PyBool _ => "bool"
  | PyInt _ => "int"
  | PyFloat _ => "float"
  | PyStr _ => "str"
  | PyList _ => "list"
  | PyDict _ => "dict"
  end.

(** ** Exceptions *)

(** Every exception the module can see is an instance of [Exception], so the
    blanket [except Exception] handlers catch all of them.  [Exception arg] is
    what the module itself raises ([raise Exception(x)]); [KeyError],
    [TypeError], [AttributeError] and [OverflowError] come from the
    interpreter's operations on [py] values; [LibraryError] stands for anything
    raised inside urllib3, [json], the codecs or [datetime], with its [str]. *)
Inductive exn : Type :=
| Exception (arg : py)
| KeyError (key : string)
| TypeError (msg : string)
| AttributeError (msg : string)
| OverflowError (msg : string)
| LibraryError (msg : string).

Inductive result (A : Type) : Type :=
| Ok (a : A)
| Err (e : exn).
Arguments Ok {A} a.
Arguments Err {A} e.

Definition is_ok {A} (r : result A) : bool :=
  match r with Ok _ => true | Err _ => false end.

Definition rbind {A B} (r : result A) (k : A -> result B) : result B :=
  match r with
  | Ok a => k a
  | Err e => Err e
  end.

(** ** Operations of the interpreter on [py] values *)

Fixpoint lookup (key : string) (d : dict) : option py :=
  match d with
  | [] => None
  | (k, v) :: rest => if String.eqb k key then Some v else lookup key rest
  end.

Definition has_key (key : string) (d : dict) : bool :=
  match lookup key d with Some _ => true | None => false end.

(** [needle in hay] on two [str]: substring test. *)
Fixpoint is_substring (needle hay : string) : bool :=
  if String.prefix needle hay then true
  else match hay with
       | EmptyString => false
       | String _ rest => is_substring needle rest
       end.

(** [s == v] where [s] is a [str]. *)
Definition str_equals (s : string) (v : py) : bool :=
  match v with
  | PyStr t => String.eqb s t
  | _ => false
  end.

(** [v.get(key, default)] *)
Definition py_get (v : py) (key : string) (default : py) : result py :=
  match v with
  | PyDict d => Ok (match lookup key d with Some x => x | None => default end)
  | _ => Err (AttributeError ("'" ++ type_name v ++ "' object has no attribute 'get'"))
  end.

(** [v[key]] with a [str] key *)
Definition py_getitem (v : py) (key : string) : result py :=
  match v with
  | PyDict d =>
      match lookup key d with
      | Some x => Ok x
      | None => Err (KeyError key)
      end
  | PyList _ => Err (TypeError "list indices must be integers or slices, not str")
  | PyStr _ => Err (TypeError "string indices must be integers, not 'str'")
  | _ => Err (TypeError ("'" ++ type_name v ++ "' object is not subscriptable"))
  end.

(** [key in v] with a [str] key *)
Definition py_contains (key : string) (v : py) : result bool :=
  match v with
  | PyDict d => Ok (has_key key d)
  | PyList l => Ok (existsb (str_equals key) l)
  | PyStr s => Ok (is_substring key s)
  | _ => Err (TypeError ("argument of type '" ++ type_name v ++ "' is not iterable"))
  end.

(** The items [for d in v] runs over. *)
Definition py_iter (v : py) : result (list py) :=
  match v with
  | PyList l => Ok l
  | PyDict d => Ok (map (fun kv => PyStr (fst kv)) d)
  | PyStr s => Ok (map (fun c => PyStr (String c "")) (list_ascii_of_string s))
  | _ => Err (TypeError ("'" ++ type_name v ++ "' object is not iterable"))
  end.

(** [float(z)] for an [int]: round to nearest even, [OverflowError] beyond the
    range of a double. *)
Definition float_of_int (z : Z) : result float :=
  let f := SF2Prim (SpecFloat.binary_normalize prec emax z 0 false) in
  if PrimFloat.is_infinity f
  then Err (OverflowError "int too large to convert to float")
  else Ok f.

(** [x + v] where [x] is a [float]. *)
Definition py_float_add (x : float) (v : py) : result float :=
  match v with
  | PyFloat y => Ok (PrimFloat.add x y)
  | PyInt z => rbind (float_of_int z) (fun y => Ok (PrimFloat.add x y))
  | PyBool b => Ok (PrimFloat.add x (if b then 1%float else 0%float))
  | _ => Err (TypeError ("unsupported operand type(s) for +: 'float' and '"
                           ++ type_name v ++ "'"))
  end.

(** ** HTTP messages *)

(** The arguments of one [http.request(...)] call.  [retries] is the keyword
    argument as written at the call: [Some false] for [retries=False], [None]
    when the call does not pass it and the pool's default policy applies. *)
Record Request : Type := mkRequest {
  method : string;
  url : string;
  headers : list (string * string);
  body : option string;
  retries : option bool
}.

Record Response : Type := mkResponse {
  status : Z;
  data : list byte
}.

(** [io.BytesIO(initial)]: the buffer and the read position. *)
Record BytesIO : Type := mkBytesIO {
  buffer : list byte;
  position : nat
}.

Definition BytesIO_of (initial : list byte) : BytesIO := mkBytesIO initial 0.

(** A naive [datetime], as microseconds since the epoch. *)
Record datetime : Type := mkDatetime { micros : Z }.

Definition datetime_lt (a b : datetime) : Prop := micros a < micros b.

(** ** The runtime *)

(** What the module takes from outside itself: the pool manager behind the
    global [http], the clock, and the library functions it calls. *)
Record World : Type := mkWorld {
  (** [http.request(method, url, headers=, body=, retries=)] *)
  pool_request : Request -> result Response;
  (** [urllib.parse.urlencode] on a dict of strings *)
  urlencode : list (string * string) -> string;
  (** [bytes.decode("utf-8")] *)
  decode_utf8 : list byte -> result string;
  (** [json.loads] *)
  json_loads : string -> result py;
  (** [datetime.now().timestamp()] *)
  now_timestamp : float;
  (** [datetime.fromtimestamp] *)
  fromtimestamp : float -> result datetime;
  (** [repr] of a [str] and of a [float] *)
  repr_str : string -> string;
  repr_float : float -> string
}.

(** ** [repr] and [str] *)

Definition repr_int (z : Z) : string :=
  DecimalString.NilZero.string_of_int (Z.to_int z).

Fixpoint join (sep : string) (parts : list string) : string :=
  match parts with
  | [] => ""
  | [p] => p
  | p :: rest => p ++ sep ++ join sep rest
  end.

Section Repr.
Variable w : World.

(** [repr(v)] *)
Fixpoint py_repr (v : py) : string :=
  match v with
  | PyNone => "None"
  | PyBool b => if b then "True" else "False"
  | PyInt z => repr_int z
  | PyFloat f => repr_float w f
  | PyStr s => repr_str w s
  | PyList l => "[" ++ join ", " (map py_repr l) ++ "]"
  | PyDict d =>
      "{" ++ join ", " (map (fun kv => match kv with
                                     | (k, x) => repr_str w k ++ ": " ++ py_repr x
                                     end) d) ++ "}"
  end.

(** [str(v)]: a [str] is itself, every other JSON value prints as its
    [repr]. *)
Definition py_str (v : py) : string :=
  match v with
  | PyStr s => s
  | _ => py_repr v
  end.

(** [str(e)].  [Exception(x)] prints as [str(x)]; a [KeyError] prints the
    [repr] of its key. *)
Definition str_exn (e : exn) : string :=
  match e with
  | Exception arg => py_str arg
  | KeyError key => repr_str w key
  | TypeError msg => msg
  | AttributeError msg => msg
  | OverflowError msg => msg
  | LibraryError msg => msg
  end.
End Repr.

(** ** The [io] monad *)

(** A computation reads the runtime and yields the requests it handed to the
    pool, in order, together with its return value or the exception that left
    it. *)
Definition io (A : Type) : Type := World -> list Request * result A.

Definition ret {A} (a : A) : io A := fun _ => ([], Ok a).

Definition raise {A} (e : exn) : io A := fun _ => ([], Err e).

Definition bind {A B} (m : io A) (k : A -> io B) : io B :=
  fun w =>
    match m w with
    | (t, Ok a) => let (t', r) := k a w in ((t ++ t')%list, r)
    | (t, Err e) => (t, Err e)
    end.

(** A pure operation that may raise. *)
Definition lift {A} (r : result A) : io A := fun _ => ([], r).

(** A call into the runtime that may raise. *)
Definition call {A} (f : World -> result A) : io A := fun w => ([], f w).

(** A read of the runtime. *)
Definition ask {A} (f : World -> A) : io A := fun w => ([], Ok (f w)).

(** [http.request(...)]: the request reaches the pool, which answers or
    raises. *)
Definition http_request (r : Request) : io Response :=
  fun w => ([r], pool_request w r).

(** [try: m  except Exception as e: h e] *)
Definition try_except {A} (m : io A) (h : exn -> io A) : io A :=
  fun w =>
    match m w with
    | (t, Ok a) => (t, Ok a)
    | (t, Err e) => let (t', r) := h e w in ((t ++ t')%list, r)
    end.

Declare Scope io_scope.
Delimit Scope io_scope with io.
Notation "x <- m ;; k" := (bind m (fun x => k))
  (at level 61, m at next level, right associativity) : io_scope.
Local Open Scope io_scope.

(** The requests a run issued, and how it ended. *)
Definition requests {A} (m : io A) (w : World) : list Request := fst (m w).
Definition outcome {A} (m : io A) (w : World) : result A := snd (m w).

(** [raise Exception(f"{label}{str(e)}")] *)
Definition reraise {A} (label : string) (e : exn) : io A :=
  s <- ask (fun w => str_exn w e) ;;
  raise (Exception (PyStr (label ++ s))).

(** ** The operations of [_raw.py] *)

(** [json.loads(response.data.decode("utf-8"))] *)
Definition loads_body (response : Response) : io py :=
  text <- call (fun w => decode_utf8 w (data response)) ;;
  call (fun w => json_loads w text).

(** The [Accept] / [Authorization] headers of the Graph calls. *)
Definition graph_headers (token : string) : list (string * string) :=
  [("Accept", "application/json"); ("Authorization", "Bearer " ++ token)].

(** The non-200 branch of the Graph calls:
    [raise Exception(response_data["error"]["message"])]. *)
Definition raise_error_message {A} (response_data : py) : io A :=
  error <- lift (py_getitem response_data "error") ;;
  error_description <- lift (py_getitem error "message") ;;
  raise (Exception error_description).

Section Token.
(** [sharepoint_wrapper._constants.SCOPE], the OAuth scope sent with every
    token request; its value lives outside [_raw.py]. *)
Variable SCOPE : string.

Definition token_request (w : World) (tenant_domain client_id client_secret : string)
  : Request :=
  let url := "https://login.microsoftonline.com/" ++ tenant_domain
               ++ "/oauth2/v2.0/token" in
  let form := [("grant_type", "client_credentials");
               ("client_id", client_id);
               ("client_secret", client_secret);
               ("scope", SCOPE)] in
  let headers := [("Content-Type", "application/x-www-form-urlencoded")] in
  mkRequest "POST" url headers (Some (urlencode w form)) (Some false).

(** The body of the [try] of [get_graph_token]. *)
Definition get_graph_token_try (tenant_domain client_id client_secret : string)
  : io (py * option datetime) :=
  request <- ask (fun w => token_request w tenant_domain client_id client_secret) ;;
  response <- http_request request ;;
  response_data <- loads_body response ;;
  if negb (status response =? 200) then
    error_description <-
      lift (py_get response_data "error_description" (PyStr "Unknown error")) ;;
    raise (Exception error_description)
  else
    token <- lift (py_get response_data "access_token" PyNone) ;;
    expires_in <- lift (py_get response_data "expires_in" PyNone) ;;
    expiry <- match expires_in with
              | PyNone => ret None
              | _ =>
                  now <- ask now_timestamp ;;
                  t <- lift (py_float_add now expires_in) ;;
                  at_ <- call (fun w => fromtimestamp w t) ;;
                  ret (Some at_)
              end ;;
    ret (token, expiry).

Definition get_graph_token (tenant_domain client_id client_secret : string)
  : io (py * option datetime) :=
  try_except (get_graph_token_try tenant_domain client_id client_secret)
             (reraise "Error during token retrieval: ").
End Token.

Definition site_request (tenant site token : string) : Request :=
  let url := "https://graph.microsoft.com/v1.0/sites/" ++ tenant
               ++ ".sharepoint.com:/sites/" ++ site in
  mkRequest "GET" url (graph_headers token) None (Some false).

Definition get_site_try (tenant site token : string) : io py :=
  response <- http_request (site_request tenant site token) ;;
  response_data <- loads_body response ;;
  if negb (status response =? 200) then
    raise_error_message response_data
  else
    site_id <- lift (py_get response_data "id" PyNone) ;;
    ret site_id.

Definition get_site (tenant site token : string) : io py :=
  try_except (get_site_try tenant site token) (reraise "Invalid Site: ").

Definition drives_request (site_id token : string) : Request :=
  let url := "https://graph.microsoft.com/v1.0/sites/" ++ site_id ++ "/drives" in
  mkRequest "GET" url (graph_headers token) None (Some false).

(** [[(d.get("id"), d.get("name")) for d in raw_drives]]: the first element
    that raises ends the comprehension. *)
Fixpoint drives_of (raw_drives : list py) : result (list (py * py)) :=
  match raw_drives with
  | [] => Ok []
  | d :: rest =>
      rbind (py_get d "id" PyNone) (fun id =>
      rbind (py_get d "name" PyNone) (fun name =>
      rbind (drives_of rest) (fun tl =>
      Ok ((id, name) :: tl))))
  end.

Definition get_drives_try (site_id token : string) : io (list (py * py)) :=
  response <- http_request (drives_request site_id token) ;;
  response_data <- loads_body response ;;
  if negb (status response =? 200) then
    raise_error_message response_data
  else
    raw_drives <- lift (py_get response_data "value" PyNone) ;;
    drives <- match raw_drives with
              | PyNone => ret []
              | _ => lift (rbind (py_iter raw_drives) drives_of)
              end ;;
    ret drives.

Definition get_drives (site_id token : string) : io (list (py * py)) :=
  try_except (get_drives_try site_id token) (reraise "Invalid Site: ").

(** [base_path is not None and not base_path.startswith("/")] *)
Definition bad_base_path (base_path : option string) : bool :=
  match base_path with
  | None => false
  | Some p => negb (String.prefix "/" p)
  end.

Definition base_path_error : exn :=
  Exception (PyStr "Base path must always begin with a slash /").

Definition children_request (drive_id token : string) (base_path : option string)
  : Request :=
  let base_path := match base_path with
                   | None => ""
                   | Some p => ":" ++ p ++ ":"
                   end in
  let url := "https://graph.microsoft.com/v1.0/drives/" ++ drive_id ++ "/root"
               ++ base_path ++ "/children" in
  mkRequest "GET" url (graph_headers token) None (Some false).

(** ["folder" if "folder" in d else "file" if "file" in d else "unknown"] *)
Definition kind_of (d : py) : result string :=
  rbind (py_contains "folder" d) (fun is_folder =>
  if is_folder then Ok "folder"
  else rbind (py_contains "file" d) (fun is_file =>
       Ok (if is_file then "file" else "unknown"))).

(** [(category is None) or (category is not None and category in d)] *)
Definition category_keeps (category : option string) (d : py) : result bool :=
  match category with
  | None => Ok true
  | Some c => py_contains c d
  end.

(** The comprehension of [get_children]: for each element the filter runs
    first, and a kept element is turned into its triple before the next
    element is looked at. *)
Fixpoint children_of (category : option string) (raw_drives : list py)
  : result (list (py * py * string)) :=
  match raw_drives with
  | [] => Ok []
  | d :: rest =>
      rbind (category_keeps category d) (fun keep =>
      if keep then
        rbind (py_get d "name" PyNone) (fun name =>
        rbind (py_get d "webUrl" PyNone) (fun webUrl =>
        rbind (kind_of d) (fun kind =>
        rbind (children_of category rest) (fun tl =>
        Ok ((name, webUrl, kind) :: tl)))))
      else children_of category rest)
  end.

Definition get_children_try (drive_id token : string) (base_path category : option string)
  : io (list (py * py * string)) :=
  response <- http_request (children_request drive_id token base_path) ;;
  response_data <- loads_body response ;;
  if negb (status response =? 200) then
    raise_error_message response_data
  else
    raw_drives <- lift (py_get response_data "value" PyNone) ;;
    drives <- match raw_drives with
              | PyNone => ret []
              | _ => lift (rbind (py_iter raw_drives) (children_of category))
              end ;;
    ret drives.

Definition get_children (drive_id token : string) (base_path category : option string)
  : io (list (py * py * string)) :=
  if bad_base_path base_path then raise base_path_error
  else try_except (get_children_try drive_id token base_path category)
                  (reraise "Invalid Site: ").

Definition file_request (drive_id token file_name : string) (base_path : option string)
  : Request :=
  (* [base_path or ""]: [None] and the empty string both give [""] *)
  let path := match base_path with
              | None => ""
              | Some p => p
              end ++ "/" ++ file_name in
  let path := ":" ++ path ++ ":" in
  let url := "https://graph.microsoft.com/v1.0/drives/" ++ drive_id ++ "/root"
               ++ path ++ "/content" in
  mkRequest "GET" url (graph_headers token) None None.

Definition get_file_try (drive_id token file_name : string) (base_path : option string)
  : io BytesIO :=
  response <- http_request (file_request drive_id token file_name base_path) ;;
  if negb (status response =? 200) then
    response_data <- loads_body response ;;
    raise_error_message response_data
  else
    ret (BytesIO_of (data response)).

Definition get_file (drive_id token file_name : string) (base_path : option string)
  : io BytesIO :=
  if bad_base_path base_path then raise base_path_error
  else try_except (get_file_try drive_id token file_name base_path)
                  (reraise "Invalid Site: ").

(** ** What the statements below speak about *)

(** [d.get(key)] on a [dict]: the value, or [None]. *)
Definition dict_get (d : dict) (key : string) : py :=
  match lookup key d with
  | Some x => x
  | None => PyNone
  end.

(** [sub] occurs in [s]. *)
Definition contains (s sub : string) : Prop :=
  exists before after, s = before ++ sub ++ after.

(** The message of the exception a run ended with, if it raised. *)
Definition raised_message {A} (m : io A) (w : World) : option string :=
  match outcome m w with
  | Err e => Some (str_exn w e)
  | Ok _ => None
  end.

Definition retries_disabled (r : Request) : Prop := retries r = Some false.

(** The directory entry of a JSON object: name, web URL and kind. *)
Definition kind_of_dict (d : dict) : string :=
  if has_key "folder" d then "folder"
  else if has_key "file" d then "file"
  else "unknown".

Definition entry_of (d : dict) : py * py * string :=
  (dict_get d "name", dict_get d "webUrl", kind_of_dict d).

Definition drive_of (d : dict) : py * py :=
  (dict_get d "id", dict_get d "name").

(** The elements a category filter lets through: all of them without a
    category, those with the category as a key otherwise. *)
Definition kept (category : option string) (d : dict) : bool :=
  match category with
  | None => true
  | Some c => has_key c d
  end.

(** A token result as the specification describes it: a non-empty token
    string together with an expiry strictly after the instant of the request
    (the one reading of the clock the call makes). *)
Definition nonempty_token (token : py) : Prop :=
  exists s, token = PyStr s /\ s <> "".

Definition expires_after (request_time : datetime) (expiry : option datetime) : Prop :=
  exists t, expiry = Some t /\ datetime_lt request_time t.

(** ** A canned runtime for the examples *)

Module Canned.

Definition quote : string := String (ascii_of_nat 34) "".

(** JSON text of a value; strings are written without escapes and floats
    through [show_float], which is all the fixtures below need. *)
Fixpoint dumps (show_float : float -> string) (v : py) : string :=
  match v with
  | PyNone => "null"
  | PyBool b => if b then "true" else "false"
  | PyInt z => repr_int z
  | PyFloat f => show_float f
  | PyStr s => quote ++ s ++ quote
  | PyList l => "[" ++ join ", " (map (dumps show_float) l) ++ "]"
  | PyDict d =>
      "{" ++ join ", " (map (fun kv => match kv with
                                     | (k, x) => quote ++ k ++ quote ++ ": "
                                                   ++ dumps show_float x
                                     end) d) ++ "}"
  end.

Definition show_float (_ : float) : string := "<float>".

(** Seconds to microseconds, exactly, ties to even. *)
Definition round_micros (f : float) : option Z :=
  match Prim2SF f with
  | SpecFloat.S754_zero _ => Some 0
  | SpecFloat.S754_finite neg m e =>
      let num := Z.pos m * 1000000 * 2 ^ (Z.max e 0) in
      let den := 2 ^ (Z.max (- e) 0) in
      let q := num / den in
      let r := num mod den in
      let up := (den <? 2 * r) || ((den =? 2 * r) && Z.odd q) in
      let n := if up then q + 1 else q in
      Some (if neg then - n else n)
  | _ => None
  end.

Definition exact_fromtimestamp (f : float) : result datetime :=
  match round_micros f with
  | Some us =>
      if (-62135596800000000 <=? us) && (us <? 253402300800000000)
      then Ok (mkDatetime us)
      else Err (LibraryError "year is out of range")
  | None => Err (LibraryError "cannot convert float NaN or infinity to integer")
  end.

(** A form body without percent-encoding. *)
Definition plain_urlencode (form : list (string * string)) : string :=
  join "&" (map (fun kv => fst kv ++ "=" ++ snd kv) form).

(** A runtime whose pool answers every request with [answer], whose JSON
    decoder knows the texts of [payloads], and whose clock reads [now]. *)
Definition world (answer : Request -> result Response) (payloads : list py)
           (now : float) : World :=
  {| pool_request := answer;
     urlencode := plain_urlencode;
     decode_utf8 := fun b => Ok (string_of_list_byte b);
     json_loads := fun text =>
       match List.find (fun v => String.eqb (dumps show_float v) text) payloads with
       | Some v => Ok v
       | None => Err (LibraryError "Expecting value: line 1 column 1 (char 0)")
       end;
     now_timestamp := now;
     fromtimestamp := exact_fromtimestamp;
     repr_str := fun s => "'" ++ s ++ "'";
     repr_float := show_float |}.

Definition json_response (code : Z) (payload : py) : Response :=
  mkResponse code (list_byte_of_string (dumps show_float payload)).

(** The pool answers with [code] and the JSON text of [payload]. *)
Definition answering (code : Z) (payload : py) (now : float) : World :=
  world (fun _ => Ok (json_response code payload)) [payload] now.

(** The pool answers by URL and raises for a URL it does not know. *)
Definition routed (routes : list (string * Response)) (payloads : list py)
           (now : float) : World :=
  world (fun r =>
           match List.find (fun route => String.eqb (fst route) (url r)) routes with
           | Some route => Ok (snd route)
           | None => Err (LibraryError "Failed to establish a new connection")
           end)
        payloads now.

(** The pool raises. *)
Definition unreachable (now : float) : World :=
  world (fun _ => Err (LibraryError "Failed to establish a new connection")) [] now.

Definition SCOPE : string := "https://graph.microsoft.com/.default".

(** The five endpoints of one tenant, as a test would mock them. *)
Definition token_payload : py :=
  PyDict [("token_type", PyStr "Bearer"); ("expires_in", PyInt 3599);
          ("access_token", PyStr "eyJ0")].

Definition site_payload : py :=
  PyDict [("id", PyStr "abc123"); ("name", PyStr "team")].

Definition drives_payload : py :=
  PyDict [("value", PyList [PyDict [("id", PyStr "d1"); ("name", PyStr "Documents")]])].

Definition children_payload : py :=
  PyDict [("value", PyList
    [PyDict [("name", PyStr "Reports"); ("webUrl", PyStr "https://contoso/Reports");
             ("folder", PyDict [("childCount", PyInt 1)])];
     PyDict [("name", PyStr "readme.txt"); ("webUrl", PyStr "https://contoso/readme.txt");
             ("file", PyDict [])]])].

Definition pdf_bytes : list byte := list_byte_of_string "%PDF-1.7 q1".

Definition tenant_world : World :=
  routed
    [("https://login.microsoftonline.com/contoso.onmicrosoft.com/oauth2/v2.0/token",
      json_response 200 token_payload);
     ("https://graph.microsoft.com/v1.0/sites/contoso.sharepoint.com:/sites/team",
      json_response 200 site_payload);
     ("https://graph.microsoft.com/v1.0/sites/abc123/drives",
      json_response 200 drives_payload);
     ("https://graph.microsoft.com/v1.0/drives/d1/root/children",
      json_response 200 children_payload);
     ("https://graph.microsoft.com/v1.0/drives/d1/root:/Reports/q1.pdf:/content",
      mkResponse 200 pdf_bytes)]
    [token_payload; site_payload; drives_payload; children_payload]
    1700000000.25%float.

End Canned.

(** ** The decorator *)

(** [str(args)] for the tuple of positional arguments: a one-element tuple
    keeps its trailing comma. *)
Definition tuple_repr (w : World) (args : list py) : string :=
  match args with
  | [a] => "(" ++ py_repr w a ++ ",)"
  | _ => "(" ++ join ", " (map (py_repr w) args) ++ ")"
  end.

(** The line [wrapper] prints before it calls [func]. *)
Definition execution_line (w : World) (name : string) (args : list py) (kwargs : dict)
  : string :=
  "Executing " ++ name ++ " with args: " ++ tuple_repr w args
    ++ ", kwargs: " ++ py_repr w (PyDict kwargs).

(** The [wrapper] that [log_execution(func)] returns, called with positional
    arguments [args] and keyword arguments [kwargs]; [name] is
    [func.__name__].  It yields the lines written to standard output and then
    the run of [func] itself. *)
Definition log_execution {A} (name : string) (func : list py -> dict -> io A)
           (args : list py) (kwargs : dict)
  : World -> list string * (list Request * result A) :=
  fun w => ([execution_line w name args kwargs], func args kwargs w).

(** ** More vocabulary *)

Definition is_object (v : py) : bool :=
  match v with PyDict _ => true | _ => false end.

(** [None], booleans and numbers: the values that are neither iterable nor
    containers. *)
Definition is_scalar (v : py) : bool :=
  match v with
  | PyNone | PyBool _ | PyInt _ | PyFloat _ => true
  | _ => false
  end.

(** The part of a Graph URL that addresses the item at [path] of a drive. *)
Definition item_stem (drive_id path : string) : string :=
  "https://graph.microsoft.com/v1.0/drives/" ++ drive_id ++ "/root:" ++ path ++ ":".

(** [(base_path or "") + "/" + file_name], the item path of a file fetch. *)
Definition file_path (base_path : option string) (file_name : string) : string :=
  match base_path with
  | None => ""
  | Some p => p
  end ++ "/" ++ file_name.

(** ** Running computations *)

Ltac unfold_io :=
  unfold outcome, requests, raised_message, reraise, loads_body, raise_error_message,
    try_except, bind, ret, raise, lift, call, ask, http_request in *.

Ltac run_io := unfold_io; cbn [fst snd app rbind].

Lemma status_not_200 (response : Response) :
  status response <> 200 -> negb (status response =? 200) = true.
Proof. intros H. apply negb_true_iff, Z.eqb_neq, H. Qed.

Lemma status_200 (response : Response) :
  status response = 200 -> negb (status response =? 200) = false.
Proof. intros H. apply negb_false_iff, Z.eqb_eq, H. Qed.

Lemma contains_suffix (label s : string) : contains (label ++ s) s.
Proof.
  exists label, "".
  assert (E : forall t : string, t ++ "" = t)
    by (induction t as [|c t IH]; cbn; [reflexivity | now rewrite IH]).
  now rewrite E.
Qed.

Lemma bad_base_path_spec (base_path : option string) :
  bad_base_path base_path = true <->
  exists p, base_path = Some p /\ String.prefix "/" p = false.
Proof.
  destruct base_path as [p|]; cbn.
  - rewrite negb_true_iff. split.
    + intros H. exists p. auto.
    + intros (q & E & H). now inversion E; subst.
  - split; [discriminate | intros (q & E & _); discriminate].
Qed.

(** Once the base path is accepted, each operation hands exactly one request
    to the pool, whatever happens afterwards. *)
Lemma requests_get_graph_token SCOPE tenant_domain client_id client_secret w :
  requests (get_graph_token SCOPE tenant_domain client_id client_secret) w
  = [token_request SCOPE w tenant_domain client_id client_secret].
Proof.
  unfold get_graph_token, get_graph_token_try. run_io.
  destruct (pool_request w _) as [response|e]; cbn; [|reflexivity].
  destruct (decode_utf8 w _) as [text|e]; cbn; [|reflexivity].
  destruct (json_loads w text) as [response_data|e]; cbn; [|reflexivity].
  destruct (negb _); cbn.
  - destruct (py_get response_data _ _); reflexivity.
  - destruct (py_get response_data "access_token" _); cbn; [|reflexivity].
    destruct (py_get response_data "expires_in" _) as [expires_in|]; cbn; [|reflexivity].
    destruct expires_in; cbn; try reflexivity;
      try (destruct (float_of_int _); cbn; [|reflexivity]);
      destruct (fromtimestamp w _); reflexivity.
Qed.

Lemma requests_raise_error_message {A} response_data w :
  fst (@raise_error_message A response_data w) = [].
Proof.
  run_io. destruct (py_getitem response_data _) as [error|]; cbn; [|reflexivity].
  destruct (py_getitem error _); reflexivity.
Qed.

Lemma requests_get_site tenant site token w :
  requests (get_site tenant site token) w = [site_request tenant site token].
Proof.
  unfold get_site, get_site_try. run_io.
  destruct (pool_request w _) as [response|e]; cbn; [|reflexivity].
  destruct (decode_utf8 w _) as [text|e]; cbn; [|reflexivity].
  destruct (json_loads w text) as [response_data|e]; cbn; [|reflexivity].
  destruct (negb _); cbn.
  - destruct (py_getitem response_data _) as [error|]; cbn; [|reflexivity].
    destruct (py_getitem error _); reflexivity.
  - destruct (py_get response_data _ _); reflexivity.
Qed.

Lemma requests_get_drives site_id token w :
  requests (get_drives site_id token) w = [drives_request site_id token].
Proof.
  unfold get_drives, get_drives_try. run_io.
  destruct (pool_request w _) as [response|e]; cbn; [|reflexivity].
  destruct (decode_utf8 w _) as [text|e]; cbn; [|reflexivity].
  destruct (json_loads w text) as [response_data|e]; cbn; [|reflexivity].
  destruct (negb _); cbn.
  - destruct (py_getitem response_data _) as [error|]; cbn; [|reflexivity].
    destruct (py_getitem error _); reflexivity.
  - destruct (py_get response_data _ _) as [raw_drives|]; cbn; [|reflexivity].
    destruct raw_drives; cbn; try reflexivity;
      match goal with |- context [drives_of ?l] => destruct (drives_of l) end;
      reflexivity.
Qed.

Lemma requests_get_children drive_id token base_path category w :
  bad_base_path base_path = false ->
  requests (get_children drive_id token base_path category) w
  = [children_request drive_id token base_path].
Proof.
  intros Hok. unfold get_children, get_children_try. rewrite Hok. run_io.
  destruct (pool_request w _) as [response|e]; cbn; [|reflexivity].
  destruct (decode_utf8 w _) as [text|e]; cbn; [|reflexivity].
  destruct (json_loads w text) as [response_data|e]; cbn; [|reflexivity].
  destruct (negb _); cbn.
  - destruct (py_getitem response_data _) as [error|]; cbn; [|reflexivity].
    destruct (py_getitem error _); reflexivity.
  - destruct (py_get response_data _ _) as [raw_drives|]; cbn; [|reflexivity].
    destruct raw_drives; cbn; try reflexivity;
      match goal with |- context [children_of ?c ?l] => destruct (children_of c l) end;
      reflexivity.
Qed.

Lemma requests_get_file drive_id token file_name base_path w :
  bad_base_path base_path = false ->
  requests (get_file drive_id token file_name base_path) w
  = [file_request drive_id token file_name base_path].
Proof.
  intros Hok. unfold get_file, get_file_try. rewrite Hok. run_io.
  destruct (pool_request w _) as [response|e]; cbn; [|reflexivity].
  destruct (negb _); cbn; [|reflexivity].
  destruct (decode_utf8 w _) as [text|e]; cbn; [|reflexivity].
  destruct (json_loads w text) as [response_data|e]; cbn; [|reflexivity].
  destruct (py_getitem response_data _) as [error|]; cbn; [|reflexivity].
  destruct (py_getitem error _); reflexivity.
Qed.

Create HintDb trace.

#[local] Hint Resolve requests_get_graph_token requests_get_site requests_get_drives
  requests_get_children requests_get_file : trace.

(** The mocked tenant, end to end: token, site, drives, folders, file. *)
Example tenant_walkthrough :
  outcome (get_graph_token Canned.SCOPE "contoso.onmicrosoft.com" "id" "secret")
          Canned.tenant_world
    = Ok (PyStr "eyJ0", Some (mkDatetime 1700003599250000))
  /\ outcome (get_site "contoso" "team" "eyJ0") Canned.tenant_world = Ok (PyStr "abc123")
  /\ outcome (get_drives "abc123" "eyJ0") Canned.tenant_world
       = Ok [(PyStr "d1", PyStr "Documents")]
  /\ outcome (get_children "d1" "eyJ0" None (Some "folder")) Canned.tenant_world
       = Ok [(PyStr "Reports", PyStr "https://contoso/Reports", "folder")]
  /\ outcome (get_file "d1" "eyJ0" "q1.pdf" (Some "/Reports")) Canned.tenant_world
       = Ok (BytesIO_of Canned.pdf_bytes).
Proof. repeat split; vm_compute; reflexivity. Qed.

(** A URL the pool cannot reach: the exception of the pool comes back under
    the label of the operation. *)
Example tenant_unknown_drive :
  raised_message (get_children "d9" "eyJ0" None None) Canned.tenant_world
    = Some "Invalid Site: Failed to establish a new connection".
Proof. vm_compute. reflexivity. Qed.

(** ** Base-path validation *)

(** C1.  A base path that is given and does not start with "/" makes both
    [get_children] and [get_file] raise without handing any request to the
    pool; put the other way round, a run of either operation that issued a
    request had a base path that was absent or started with "/". *)
Theorem base_path_checked_before_request :
  forall (w : World) (drive_id token file_name : string)
         (base_path category : option string),
    (forall p, base_path = Some p -> String.prefix "/" p = false ->
       requests (get_children drive_id token base_path category) w = [] /\
       outcome (get_children drive_id token base_path category) w = Err base_path_error /\
       requests (get_file drive_id token file_name base_path) w = [] /\
       outcome (get_file drive_id token file_name base_path) w = Err base_path_error)
    /\
    (requests (get_children drive_id token base_path category) w <> [] \/
     requests (get_file drive_id token file_name base_path) w <> [] ->
       base_path = None \/ exists p, base_path = Some p /\ String.prefix "/" p = true).
Proof.
  intros w drive_id token file_name base_path category. split.
  - intros p -> Hp. unfold get_children, get_file, bad_base_path.
    rewrite Hp. cbn. auto.
  - intros Hreq. destruct base_path as [p|]; [right | now left].
    exists p. split; [reflexivity|].
    destruct (String.prefix "/" p) eqn:Hp; [reflexivity | exfalso].
    unfold get_children, get_file, bad_base_path in Hreq.
    rewrite Hp in Hreq. cbn in Hreq. destruct Hreq as [H|H]; now apply H.
Qed.

Lemma base_path_checked_before_request_witness :
  let w := Canned.answering 200 (PyDict []) 0%float in
  requests (get_children "d1" "tok" (Some "Reports") None) w = [] /\
  outcome (get_children "d1" "tok" (Some "Reports") None) w = Err base_path_error /\
  requests (get_file "d1" "tok" "q1.pdf" (Some "Reports")) w = [] /\
  outcome (get_file "d1" "tok" "q1.pdf" (Some "Reports")) w = Err base_path_error.
Proof.
  intros w.
  apply (proj1 (base_path_checked_before_request w "d1" "tok" "q1.pdf"
                  (Some "Reports") None) "Reports").
  - reflexivity.
  - reflexivity.
Defined.

(** C9.  The exception raised for a base path that is given and does not
    start with "/" carries exactly the message "Base path must always begin
    with a slash /": it is raised ahead of the [try], so no "Invalid Site: "
    label is put in front of it. *)
Theorem base_path_error_message :
  forall (w : World) (drive_id token file_name p : string) (category : option string),
    String.prefix "/" p = false ->
    raised_message (get_children drive_id token (Some p) category) w
      = Some "Base path must always begin with a slash /" /\
    raised_message (get_file drive_id token file_name (Some p)) w
      = Some "Base path must always begin with a slash /" /\
    String.prefix "Invalid Site: " "Base path must always begin with a slash /" = false.
Proof.
  intros w drive_id token file_name p category Hp.
  unfold raised_message, outcome, get_children, get_file, bad_base_path.
  rewrite Hp. cbn. auto.
Qed.

Lemma base_path_error_message_witness :
  let w := Canned.unreachable 0%float in
  raised_message (get_children "d1" "tok" (Some "") (Some "folder")) w
    = Some "Base path must always begin with a slash /" /\
  raised_message (get_file "d1" "tok" "q1.pdf" (Some "")) w
    = Some "Base path must always begin with a slash /" /\
  String.prefix "Invalid Site: " "Base path must always begin with a slash /" = false.
Proof.
  intros w.
  apply (base_path_error_message w "d1" "tok" "q1.pdf" "" (Some "folder")).
  reflexivity.
Defined.

(** ** The blanket handlers *)

Lemma prefix_app (label s : string) : String.prefix label (label ++ s) = true.
Proof.
  induction label as [|c label IH]; cbn.
  - now destruct s.
  - destruct (Ascii.ascii_dec c c) as [_|N]; [exact IH | now elim N].
Qed.

(** What a [try] with a relabelling handler does with the outcome of its
    body. *)
Lemma outcome_try_reraise {A} (m : io A) (label : string) (w : World) :
  outcome (try_except m (reraise label)) w
  = match outcome m w with
    | Ok a => Ok a
    | Err cause => Err (Exception (PyStr (label ++ str_exn w cause)))
    end.
Proof.
  run_io. destruct (m w) as [t [a|cause]]; reflexivity.
Qed.

(** The three ways the request / parse step is known to fail, seen from the
    [try] body: an exception of the pool leaves it unchanged, so does one of
    the decoders, and a non-200 answer always ends it with an exception. *)
Lemma pool_failure_leaves_try (w : World) tenant site site_id drive_id token file_name
      base_path category (cause : exn) :
  (pool_request w (site_request tenant site token) = Err cause ->
   outcome (get_site_try tenant site token) w = Err cause) /\
  (pool_request w (drives_request site_id token) = Err cause ->
   outcome (get_drives_try site_id token) w = Err cause) /\
  (pool_request w (children_request drive_id token base_path) = Err cause ->
   outcome (get_children_try drive_id token base_path category) w = Err cause) /\
  (pool_request w (file_request drive_id token file_name base_path) = Err cause ->
   outcome (get_file_try drive_id token file_name base_path) w = Err cause).
Proof.
  unfold get_site_try, get_drives_try, get_children_try, get_file_try.
  repeat apply conj; intros H; run_io; rewrite H; reflexivity.
Qed.

Lemma malformed_json_leaves_try (w : World) tenant site site_id drive_id token file_name
      base_path category (response : Response) (text : string) (cause : exn) :
  decode_utf8 w (data response) = Ok text ->
  json_loads w text = Err cause ->
  (pool_request w (site_request tenant site token) = Ok response ->
   outcome (get_site_try tenant site token) w = Err cause) /\
  (pool_request w (drives_request site_id token) = Ok response ->
   outcome (get_drives_try site_id token) w = Err cause) /\
  (pool_request w (children_request drive_id token base_path) = Ok response ->
   outcome (get_children_try drive_id token base_path category) w = Err cause) /\
  (pool_request w (file_request drive_id token file_name base_path) = Ok response ->
   status response <> 200 ->
   outcome (get_file_try drive_id token file_name base_path) w = Err cause).
Proof.
  intros Hdec Hjson.
  unfold get_site_try, get_drives_try, get_children_try, get_file_try.
  repeat apply conj; intros H; try intros Hstatus; run_io; rewrite H; cbn;
    try rewrite (status_not_200 _ Hstatus); cbn; rewrite Hdec; cbn; rewrite Hjson;
    reflexivity.
Qed.

Lemma non200_ends_try (w : World) tenant site site_id drive_id token file_name
      base_path category (response : Response) :
  status response <> 200 ->
  (pool_request w (site_request tenant site token) = Ok response ->
   is_ok (outcome (get_site_try tenant site token) w) = false) /\
  (pool_request w (drives_request site_id token) = Ok response ->
   is_ok (outcome (get_drives_try site_id token) w) = false) /\
  (pool_request w (children_request drive_id token base_path) = Ok response ->
   is_ok (outcome (get_children_try drive_id token base_path category) w) = false) /\
  (pool_request w (file_request drive_id token file_name base_path) = Ok response ->
   is_ok (outcome (get_file_try drive_id token file_name base_path) w) = false).
Proof.
  intros Hstatus.
  unfold get_site_try, get_drives_try, get_children_try, get_file_try.
  repeat apply conj; intros H; run_io; rewrite H; cbn;
    try rewrite (status_not_200 _ Hstatus); cbn;
    (destruct (decode_utf8 w _) as [text|e]; cbn; [|reflexivity]);
    (destruct (json_loads w text) as [response_data|e]; cbn; [|reflexivity]);
    try rewrite (status_not_200 _ Hstatus); cbn;
    (destruct (py_getitem response_data _) as [error|e]; cbn; [|reflexivity]);
    destruct (py_getitem error _); reflexivity.
Qed.

(** C8.  Whatever makes the request / parse step of [get_site], [get_drives],
    [get_children] or [get_file] fail (a non-200 answer, an exception of the
    pool, a body that is not JSON, or anything else), the operation raises an
    [Exception] whose message is "Invalid Site: " followed by the message of
    that failure; the label is the same in all four operations. *)
Theorem failures_relabelled_invalid_site :
  forall (w : World) (tenant site site_id drive_id token file_name : string)
         (base_path category : option string) (cause : exn),
    (outcome (get_site_try tenant site token) w = Err cause ->
       outcome (get_site tenant site token) w
         = Err (Exception (PyStr ("Invalid Site: " ++ str_exn w cause))) /\
       raised_message (get_site tenant site token) w
         = Some ("Invalid Site: " ++ str_exn w cause))
    /\
    (outcome (get_drives_try site_id token) w = Err cause ->
       outcome (get_drives site_id token) w
         = Err (Exception (PyStr ("Invalid Site: " ++ str_exn w cause))) /\
       raised_message (get_drives site_id token) w
         = Some ("Invalid Site: " ++ str_exn w cause))
    /\
    (bad_base_path base_path = false ->
     outcome (get_children_try drive_id token base_path category) w = Err cause ->
       outcome (get_children drive_id token base_path category) w
         = Err (Exception (PyStr ("Invalid Site: " ++ str_exn w cause))) /\
       raised_message (get_children drive_id token base_path category) w
         = Some ("Invalid Site: " ++ str_exn w cause))
    /\
    (bad_base_path base_path = false ->
     outcome (get_file_try drive_id token file_name base_path) w = Err cause ->
       outcome (get_file drive_id token file_name base_path) w
         = Err (Exception (PyStr ("Invalid Site: " ++ str_exn w cause))) /\
       raised_message (get_file drive_id token file_name base_path) w
         = Some ("Invalid Site: " ++ str_exn w cause)).
Proof.
  intros w tenant site site_id drive_id token file_name base_path category cause.
  assert (relabel : forall A (m : io A),
             outcome m w = Err cause ->
             outcome (try_except m (reraise "Invalid Site: ")) w
               = Err (Exception (PyStr ("Invalid Site: " ++ str_exn w cause))) /\
             raised_message (try_except m (reraise "Invalid Site: ")) w
               = Some ("Invalid Site: " ++ str_exn w cause)).
  { intros A m H. unfold raised_message.
    rewrite outcome_try_reraise, H. split; reflexivity. }
  repeat split.
  - now apply relabel.
  - now apply (relabel _ (get_site_try tenant site token)).
  - now apply relabel.
  - now apply (relabel _ (get_drives_try site_id token)).
  - unfold get_children. rewrite H. now apply relabel.
  - unfold get_children. rewrite H. now apply relabel.
  - unfold get_file. rewrite H. now apply relabel.
  - unfold get_file. rewrite H. now apply relabel.
Qed.

Lemma failures_relabelled_invalid_site_witness :
  let w := Canned.answering 404
             (PyDict [("error", PyDict [("code", PyStr "itemNotFound");
                                        ("message", PyStr "Item not found")])])
             0%float in
  raised_message (get_site "contoso" "team" "tok") w
    = Some "Invalid Site: Item not found" /\
  raised_message (get_drives "abc123" "tok") w
    = Some "Invalid Site: Item not found" /\
  raised_message (get_children "d1" "tok" (Some "/Reports") (Some "folder")) w
    = Some "Invalid Site: Item not found" /\
  raised_message (get_file "d1" "tok" "q1.pdf" (Some "/Reports")) w
    = Some "Invalid Site: Item not found".
Proof.
  intros w.
  destruct (failures_relabelled_invalid_site w "contoso" "team" "abc123" "d1" "tok"
              "q1.pdf" (Some "/Reports") (Some "folder")
              (Exception (PyStr "Item not found")))
    as (Hsite & Hdrives & Hchildren & Hfile).
  split; [|split; [|split]].
  - apply Hsite. reflexivity.
  - apply Hdrives. reflexivity.
  - apply Hchildren; reflexivity.
  - apply Hfile; reflexivity.
Defined.

(** C10.  Every exception that leaves [get_graph_token] is the relabelled
    failure of its [try] body, so its message begins with "Error during token
    retrieval: "; this holds for a non-200 answer of the token endpoint as for
    an exception of the pool or of the decoders, and only the text after the
    label tells them apart. *)
Theorem token_failures_share_label :
  forall (SCOPE : string) (w : World) (tenant_domain client_id client_secret : string)
         (e : exn),
    outcome (get_graph_token SCOPE tenant_domain client_id client_secret) w = Err e ->
    exists cause,
      outcome (get_graph_token_try SCOPE tenant_domain client_id client_secret) w
        = Err cause /\
      e = Exception (PyStr ("Error during token retrieval: " ++ str_exn w cause)) /\
      String.prefix "Error during token retrieval: " (str_exn w e) = true.
Proof.
  intros SCOPE w tenant_domain client_id client_secret e H.
  unfold get_graph_token in H. rewrite outcome_try_reraise in H.
  destruct (outcome (get_graph_token_try _ _ _ _) w) as [a|cause]; [discriminate|].
  exists cause. split; [reflexivity|].
  injection H as <-. split; [reflexivity|].
  exact (prefix_app "Error during token retrieval: " (str_exn w cause)).
Qed.

Lemma token_failures_share_label_witness :
  (exists cause,
     outcome (get_graph_token_try Canned.SCOPE "contoso.onmicrosoft.com" "id" "secret")
             (Canned.answering 401
                (PyDict [("error", PyStr "invalid_client");
                         ("error_description", PyStr "Invalid client secret provided.")])
                0%float)
       = Err cause /\
     Exception (PyStr "Error during token retrieval: Invalid client secret provided.")
       = Exception (PyStr ("Error during token retrieval: "
                             ++ str_exn (Canned.answering 401
                                  (PyDict [("error", PyStr "invalid_client");
                                           ("error_description",
                                            PyStr "Invalid client secret provided.")])
                                  0%float) cause)) /\
     String.prefix "Error during token retrieval: "
       "Error during token retrieval: Invalid client secret provided." = true)
  /\
  (exists cause,
     outcome (get_graph_token_try Canned.SCOPE "contoso.onmicrosoft.com" "id" "secret")
             (Canned.unreachable 0%float) = Err cause /\
     Exception (PyStr "Error during token retrieval: Failed to establish a new connection")
       = Exception (PyStr ("Error during token retrieval: "
                             ++ str_exn (Canned.unreachable 0%float) cause)) /\
     String.prefix "Error during token retrieval: "
       "Error during token retrieval: Failed to establish a new connection" = true).
Proof.
  split.
  - apply (token_failures_share_label Canned.SCOPE
             (Canned.answering 401
                (PyDict [("error", PyStr "invalid_client");
                         ("error_description", PyStr "Invalid client secret provided.")])
                0%float)
             "contoso.onmicrosoft.com" "id" "secret"
             (Exception (PyStr "Error during token retrieval: Invalid client secret provided."))).
    reflexivity.
  - apply (token_failures_share_label Canned.SCOPE (Canned.unreachable 0%float)
             "contoso.onmicrosoft.com" "id" "secret"
             (Exception (PyStr "Error during token retrieval: Failed to establish a new connection"))).
    reflexivity.
Defined.

(** ** Token acquisition *)

(** A non-200 answer never gets past the [try] body of [get_graph_token]. *)
Lemma token_non200_fails SCOPE w tenant_domain client_id client_secret response :
  pool_request w (token_request SCOPE w tenant_domain client_id client_secret)
    = Ok response ->
  status response <> 200 ->
  exists cause,
    outcome (get_graph_token_try SCOPE tenant_domain client_id client_secret) w
      = Err cause.
Proof.
  intros Hreq Hstatus. unfold get_graph_token_try. run_io. rewrite Hreq. cbn.
  destruct (decode_utf8 w _) as [text|e]; cbn; [|eauto].
  destruct (json_loads w text) as [response_data|e]; cbn; [|eauto].
  rewrite (status_not_200 _ Hstatus). cbn.
  destruct (py_get response_data _ _); cbn; eauto.
Qed.

(** With a JSON object in the body, the failure of the [try] body is
    [Exception(error_description)], with "Unknown error" for a missing key. *)
Lemma token_non200_cause SCOPE w tenant_domain client_id client_secret response text d :
  pool_request w (token_request SCOPE w tenant_domain client_id client_secret)
    = Ok response ->
  status response <> 200 ->
  decode_utf8 w (data response) = Ok text ->
  json_loads w text = Ok (PyDict d) ->
  outcome (get_graph_token_try SCOPE tenant_domain client_id client_secret) w
    = Err (Exception (match lookup "error_description" d with
                      | Some v => v
                      | None => PyStr "Unknown error"
                      end)).
Proof.
  intros Hreq Hstatus Hdec Hjson. unfold get_graph_token_try. run_io.
  rewrite Hreq. cbn. rewrite Hdec. cbn. rewrite Hjson. cbn.
  rewrite (status_not_200 _ Hstatus). reflexivity.
Qed.

(** C6.  On a non-200 answer of the token endpoint [get_graph_token] raises.
    When the body is a JSON object, the message is the label followed by
    [str] of its [error_description] value, so a description string appears in
    it as it was sent, and "Unknown error" appears when the key is missing. *)
Theorem token_non200_carries_description :
  forall (SCOPE : string) (w : World) (tenant_domain client_id client_secret : string)
         (response : Response),
    pool_request w (token_request SCOPE w tenant_domain client_id client_secret)
      = Ok response ->
    status response <> 200 ->
    (exists e,
       outcome (get_graph_token SCOPE tenant_domain client_id client_secret) w = Err e)
    /\
    forall (text : string) (d : dict),
      decode_utf8 w (data response) = Ok text ->
      json_loads w text = Ok (PyDict d) ->
      (forall v, lookup "error_description" d = Some v ->
         raised_message (get_graph_token SCOPE tenant_domain client_id client_secret) w
           = Some ("Error during token retrieval: " ++ py_str w v))
      /\
      (forall s, lookup "error_description" d = Some (PyStr s) ->
         exists msg,
           raised_message (get_graph_token SCOPE tenant_domain client_id client_secret) w
             = Some msg /\ contains msg s)
      /\
      (lookup "error_description" d = None ->
         exists msg,
           raised_message (get_graph_token SCOPE tenant_domain client_id client_secret) w
             = Some msg /\ contains msg "Unknown error").
Proof.
  intros SCOPE w tenant_domain client_id client_secret response Hreq Hstatus. split.
  - destruct (token_non200_fails SCOPE w _ _ _ _ Hreq Hstatus) as [cause Hcause].
    unfold get_graph_token. rewrite outcome_try_reraise, Hcause. eauto.
  - intros text d Hdec Hjson.
    pose proof (token_non200_cause SCOPE w _ _ _ _ _ _ Hreq Hstatus Hdec Hjson) as Hcause.
    assert (Hmsg :
      raised_message (get_graph_token SCOPE tenant_domain client_id client_secret) w
      = Some ("Error during token retrieval: "
                ++ py_str w (match lookup "error_description" d with
                             | Some v => v
                             | None => PyStr "Unknown error"
                             end))).
    { unfold raised_message, get_graph_token.
      rewrite outcome_try_reraise, Hcause. reflexivity. }
    split; [|split].
    + intros v Hv. rewrite Hmsg, Hv. reflexivity.
    + intros s Hs. rewrite Hmsg, Hs. eexists. split; [reflexivity|].
      apply contains_suffix.
    + intros Hnone. rewrite Hmsg, Hnone. eexists. split; [reflexivity|].
      apply contains_suffix.
Qed.

Lemma token_non200_carries_description_witness :
  (exists msg,
     raised_message (get_graph_token Canned.SCOPE "contoso.onmicrosoft.com" "id" "secret")
       (Canned.answering 401
          (PyDict [("error", PyStr "invalid_client");
                   ("error_description", PyStr "Invalid client secret provided.")])
          0%float)
       = Some msg /\ contains msg "Invalid client secret provided.")
  /\
  (exists msg,
     raised_message (get_graph_token Canned.SCOPE "contoso.onmicrosoft.com" "id" "secret")
       (Canned.answering 503 (PyDict []) 0%float)
       = Some msg /\ contains msg "Unknown error").
Proof.
  split.
  - destruct (token_non200_carries_description Canned.SCOPE
                (Canned.answering 401
                   (PyDict [("error", PyStr "invalid_client");
                            ("error_description", PyStr "Invalid client secret provided.")])
                   0%float)
                "contoso.onmicrosoft.com" "id" "secret"
                (mkResponse 401 _) eq_refl) as [_ Hbody].
    + cbn. lia.
    + destruct (Hbody _ _ eq_refl eq_refl) as (_ & Hstr & _).
      apply Hstr. reflexivity.
  - destruct (token_non200_carries_description Canned.SCOPE
                (Canned.answering 503 (PyDict []) 0%float)
                "contoso.onmicrosoft.com" "id" "secret"
                (mkResponse 503 _) eq_refl) as [_ Hbody].
    + cbn. lia.
    + destruct (Hbody _ _ eq_refl eq_refl) as (_ & _ & Hnone).
      apply Hnone. reflexivity.
Defined.

(** C3, as the code has it.  On a 200 answer whose body is a JSON object,
    [get_graph_token] returns the [access_token] value as it was sent ([None]
    when the key is missing; it is not checked to be a non-empty string), with
    no expiry when [expires_in] is missing or null, and otherwise with the
    instant [fromtimestamp(now + expires_in)]; when that sum or that
    conversion raises, so does the call, under its usual label. *)
Theorem token_200_passes_fields_through :
  forall (SCOPE : string) (w : World) (tenant_domain client_id client_secret : string)
         (response : Response) (text : string) (d : dict),
    pool_request w (token_request SCOPE w tenant_domain client_id client_secret)
      = Ok response ->
    status response = 200 ->
    decode_utf8 w (data response) = Ok text ->
    json_loads w text = Ok (PyDict d) ->
    (dict_get d "expires_in" = PyNone ->
       outcome (get_graph_token SCOPE tenant_domain client_id client_secret) w
         = Ok (dict_get d "access_token", None))
    /\
    (forall (t : float) (expiry : datetime),
       dict_get d "expires_in" <> PyNone ->
       py_float_add (now_timestamp w) (dict_get d "expires_in") = Ok t ->
       fromtimestamp w t = Ok expiry ->
       outcome (get_graph_token SCOPE tenant_domain client_id client_secret) w
         = Ok (dict_get d "access_token", Some expiry))
    /\
    (forall cause : exn,
       dict_get d "expires_in" <> PyNone ->
       rbind (py_float_add (now_timestamp w) (dict_get d "expires_in")) (fromtimestamp w)
         = Err cause ->
       outcome (get_graph_token SCOPE tenant_domain client_id client_secret) w
         = Err (Exception (PyStr ("Error during token retrieval: " ++ str_exn w cause)))).
Proof.
  intros SCOPE w tenant_domain client_id client_secret response text d
         Hreq Hstatus Hdec Hjson.
  assert (Hrun :
    outcome (get_graph_token SCOPE tenant_domain client_id client_secret) w
    = match dict_get d "expires_in" with
      | PyNone => Ok (dict_get d "access_token", None)
      | expires_in =>
          match rbind (py_float_add (now_timestamp w) expires_in) (fromtimestamp w) with
          | Ok expiry => Ok (dict_get d "access_token", Some expiry)
          | Err cause =>
              Err (Exception (PyStr ("Error during token retrieval: "
                                       ++ str_exn w cause)))
          end
      end).
  { unfold get_graph_token. rewrite outcome_try_reraise.
    unfold get_graph_token_try. run_io.
    rewrite Hreq. cbn. rewrite Hdec. cbn. rewrite Hjson. cbn.
    rewrite (status_200 _ Hstatus). cbn.
    fold (dict_get d "access_token"). fold (dict_get d "expires_in").
    destruct (dict_get d "expires_in") as [|b|z|f|s|l|d']; cbn; try reflexivity;
      try (destruct (float_of_int z); cbn; [|reflexivity]);
      match goal with |- context [fromtimestamp w ?x] =>
        destruct (fromtimestamp w x) end; reflexivity. }
  split; [|split].
  - intros Hnone. rewrite Hrun, Hnone. reflexivity.
  - intros t expiry Hsome Hadd Hfrom. rewrite Hrun.
    destruct (dict_get d "expires_in"); try (now elim Hsome);
      rewrite Hadd; cbn [rbind]; rewrite Hfrom; reflexivity.
  - intros cause Hsome Hfail. rewrite Hrun.
    destruct (dict_get d "expires_in"); try (now elim Hsome);
      rewrite Hfail; reflexivity.
Qed.

Lemma token_200_passes_fields_through_witness :
  outcome (get_graph_token Canned.SCOPE "contoso.onmicrosoft.com" "id" "secret")
    (Canned.answering 200 (PyDict [("token_type", PyStr "Bearer"); ("access_token", PyStr "eyJ0")])
       1700000000.25%float)
    = Ok (PyStr "eyJ0", None)
  /\
  outcome (get_graph_token Canned.SCOPE "contoso.onmicrosoft.com" "id" "secret")
    (Canned.answering 200
       (PyDict [("token_type", PyStr "Bearer"); ("expires_in", PyInt 3599);
                ("access_token", PyStr "eyJ0")])
       1700000000.25%float)
    = Ok (PyStr "eyJ0", Some (mkDatetime 1700003599250000)).
Proof.
  split.
  - apply (proj1 (token_200_passes_fields_through Canned.SCOPE
             (Canned.answering 200
                (PyDict [("token_type", PyStr "Bearer"); ("access_token", PyStr "eyJ0")])
                1700000000.25%float)
             "contoso.onmicrosoft.com" "id" "secret" (mkResponse 200 _) _ _
             eq_refl eq_refl eq_refl eq_refl)).
    reflexivity.
  - apply (proj1 (proj2 (token_200_passes_fields_through Canned.SCOPE
             (Canned.answering 200
                (PyDict [("token_type", PyStr "Bearer"); ("expires_in", PyInt 3599);
                         ("access_token", PyStr "eyJ0")])
                1700000000.25%float)
             "contoso.onmicrosoft.com" "id" "secret" (mkResponse 200 _) _ _
             eq_refl eq_refl eq_refl eq_refl)) 1700003599.25%float).
    + discriminate.
    + reflexivity.
    + reflexivity.
Defined.

(** C3 as the specification words it fails on a 200 answer that carries no
    [access_token] and a lifetime of zero seconds: the token returned is [None]
    rather than a non-empty string, and the expiry is the very instant the
    call read from the clock, not a later one. *)
Lemma token_claim_counterexample :
  outcome (get_graph_token Canned.SCOPE "contoso.onmicrosoft.com" "id" "secret")
    (Canned.answering 200 (PyDict [("token_type", PyStr "Bearer"); ("expires_in", PyInt 0)])
       1700000000%float)
    = Ok (PyNone, Some (mkDatetime 1700000000000000))
  /\ fromtimestamp
       (Canned.answering 200
          (PyDict [("token_type", PyStr "Bearer"); ("expires_in", PyInt 0)])
          1700000000%float)
       1700000000%float
     = Ok (mkDatetime 1700000000000000)
  /\ ~ nonempty_token PyNone
  /\ ~ expires_after (mkDatetime 1700000000000000) (Some (mkDatetime 1700000000000000)).
Proof.
  split; [reflexivity|]. split; [reflexivity|]. split.
  - intros (s & Hs & _). discriminate.
  - intros (t & Ht & Hlt). injection Ht as <-. unfold datetime_lt in Hlt. cbn in Hlt. lia.
Qed.

(** ** File content *)

(** C4.  Once the base path is accepted and the pool has answered: on status
    200 [get_file] returns a buffer holding exactly the bytes of the response
    body, read position at the start; on any other status it raises, and when
    the body is JSON with an [error.message] value the message of the
    exception is the label followed by [str] of that value, so a message
    string of the provider appears in it as it was sent. *)
Theorem get_file_bytes_or_provider_message :
  forall (w : World) (drive_id token file_name : string) (base_path : option string)
         (response : Response),
    bad_base_path base_path = false ->
    pool_request w (file_request drive_id token file_name base_path) = Ok response ->
    (status response = 200 ->
       outcome (get_file drive_id token file_name base_path) w
         = Ok (BytesIO_of (data response)) /\
       buffer (BytesIO_of (data response)) = data response)
    /\
    (status response <> 200 ->
       (exists e, outcome (get_file drive_id token file_name base_path) w = Err e)
       /\
       forall (text : string) (response_data error v : py),
         decode_utf8 w (data response) = Ok text ->
         json_loads w text = Ok response_data ->
         py_getitem response_data "error" = Ok error ->
         py_getitem error "message" = Ok v ->
         raised_message (get_file drive_id token file_name base_path) w
           = Some ("Invalid Site: " ++ py_str w v) /\
         (forall s, v = PyStr s ->
            exists msg,
              raised_message (get_file drive_id token file_name base_path) w = Some msg
              /\ contains msg s)).
Proof.
  intros w drive_id token file_name base_path response Hpath Hreq.
  unfold raised_message, get_file. rewrite Hpath, outcome_try_reraise.
  unfold get_file_try. run_io. rewrite Hreq. cbn. split.
  - intros Hstatus. rewrite (status_200 _ Hstatus). cbn. split; reflexivity.
  - intros Hstatus. rewrite (status_not_200 _ Hstatus). cbn. split.
    + destruct (decode_utf8 w _) as [text|e]; cbn; [|eauto].
      destruct (json_loads w text) as [response_data|e]; cbn; [|eauto].
      destruct (py_getitem response_data _) as [error|e]; cbn; [|eauto].
      destruct (py_getitem error _) as [v|e]; cbn; eauto.
    + intros text response_data error v Hdec Hjson Herror Hmessage.
      rewrite Hdec. cbn. rewrite Hjson. cbn. rewrite Herror. cbn.
      rewrite Hmessage. cbn. split; [reflexivity|].
      intros s ->. eexists. split; [reflexivity|].
      exact (contains_suffix "Invalid Site: " s).
Qed.

Lemma get_file_bytes_or_provider_message_witness :
  outcome (get_file "d1" "tok" "q1.pdf" (Some "/Reports"))
    (Canned.world (fun _ => Ok (mkResponse 200 (list_byte_of_string "%PDF-1.7")))
       [] 0%float)
    = Ok (BytesIO_of (list_byte_of_string "%PDF-1.7"))
  /\
  raised_message (get_file "d1" "tok" "q1.pdf" (Some "/Reports"))
    (Canned.answering 404
       (PyDict [("error", PyDict [("code", PyStr "itemNotFound");
                                  ("message", PyStr "Item not found")])])
       0%float)
    = Some "Invalid Site: Item not found".
Proof.
  split.
  - apply (proj1 (get_file_bytes_or_provider_message
             (Canned.world (fun _ => Ok (mkResponse 200 (list_byte_of_string "%PDF-1.7")))
                [] 0%float)
             "d1" "tok" "q1.pdf" (Some "/Reports") (mkResponse 200 _) eq_refl eq_refl)).
    reflexivity.
  - destruct (get_file_bytes_or_provider_message
             (Canned.answering 404
                (PyDict [("error", PyDict [("code", PyStr "itemNotFound");
                                           ("message", PyStr "Item not found")])])
                0%float)
             "d1" "tok" "q1.pdf" (Some "/Reports") (mkResponse 404 _) eq_refl eq_refl)
      as [_ Hfail].
    destruct Hfail as [_ Hbody]; [cbn; lia|].
    apply (Hbody _ _ _ (PyStr "Item not found") eq_refl eq_refl eq_refl eq_refl).
Defined.

(** ** Listings *)

Lemma drives_of_objects (elems : list dict) :
  drives_of (map PyDict elems) = Ok (map drive_of elems).
Proof.
  induction elems as [|d elems IH]; cbn [map drives_of]; [reflexivity|].
  cbn [py_get rbind]. rewrite IH. reflexivity.
Qed.

Lemma kind_of_object (d : dict) : kind_of (PyDict d) = Ok (kind_of_dict d).
Proof.
  unfold kind_of, kind_of_dict. cbn [py_contains rbind].
  destruct (has_key "folder" d); [reflexivity|].
  destruct (has_key "file" d); reflexivity.
Qed.

Lemma children_of_objects (category : option string) (elems : list dict) :
  children_of category (map PyDict elems)
  = Ok (map entry_of (filter (kept category) elems)).
Proof.
  induction elems as [|d elems IH]; cbn [map filter children_of]; [reflexivity|].
  assert (Hkeep : category_keeps category (PyDict d) = Ok (kept category d))
    by (destruct category; reflexivity).
  rewrite Hkeep. cbn [rbind]. destruct (kept category d).
  - cbn [py_get rbind]. rewrite kind_of_object. cbn [rbind]. rewrite IH. reflexivity.
  - exact IH.
Qed.

(** C5.  On a 200 answer whose body is a JSON object, [get_drives] returns the
    empty list, and does not raise, when [value] is missing, null or an empty
    array; when [value] is an array of JSON objects it returns their
    [(id, name)] pairs in order. *)
Theorem get_drives_pairs_of_value :
  forall (w : World) (site_id token : string) (response : Response) (text : string)
         (d : dict),
    pool_request w (drives_request site_id token) = Ok response ->
    status response = 200 ->
    decode_utf8 w (data response) = Ok text ->
    json_loads w text = Ok (PyDict d) ->
    (lookup "value" d = None \/ lookup "value" d = Some PyNone
       \/ lookup "value" d = Some (PyList []) ->
     outcome (get_drives site_id token) w = Ok [])
    /\
    (forall elems : list dict,
       lookup "value" d = Some (PyList (map PyDict elems)) ->
       outcome (get_drives site_id token) w = Ok (map drive_of elems)).
Proof.
  intros w site_id token response text d Hreq Hstatus Hdec Hjson.
  assert (Hrun : forall raw, dict_get d "value" = raw ->
    outcome (get_drives site_id token) w
    = match match raw with
            | PyNone => Ok []
            | _ => rbind (py_iter raw) drives_of
            end with
      | Ok drives => Ok drives
      | Err cause => Err (Exception (PyStr ("Invalid Site: " ++ str_exn w cause)))
      end).
  { intros raw Hraw. unfold get_drives. rewrite outcome_try_reraise.
    unfold get_drives_try. run_io.
    rewrite Hreq. cbn. rewrite Hdec. cbn. rewrite Hjson. cbn.
    rewrite (status_200 _ Hstatus). cbn. fold (dict_get d "value"). rewrite Hraw.
    destruct raw; cbn; try reflexivity;
      match goal with |- context [drives_of ?l] => destruct (drives_of l) end;
      reflexivity. }
  split.
  - intros [H|[H|H]].
    + rewrite (Hrun PyNone); [reflexivity|]. unfold dict_get. now rewrite H.
    + rewrite (Hrun PyNone); [reflexivity|]. unfold dict_get. now rewrite H.
    + rewrite (Hrun (PyList [])); [reflexivity|]. unfold dict_get. now rewrite H.
  - intros elems H. rewrite (Hrun (PyList (map PyDict elems))).
    + cbn [py_iter rbind]. rewrite drives_of_objects. reflexivity.
    + unfold dict_get. now rewrite H.
Qed.

Lemma get_drives_pairs_of_value_witness :
  outcome (get_drives "abc123" "tok") (Canned.answering 200 (PyDict []) 0%float) = Ok []
  /\
  outcome (get_drives "abc123" "tok")
    (Canned.answering 200
       (PyDict [("value", PyList (map PyDict
                   [[("id", PyStr "d1"); ("name", PyStr "Documents")];
                    [("id", PyStr "d2")]]))])
       0%float)
    = Ok [(PyStr "d1", PyStr "Documents"); (PyStr "d2", PyNone)].
Proof.
  split.
  - apply (proj1 (get_drives_pairs_of_value
             (Canned.answering 200 (PyDict []) 0%float)
             "abc123" "tok" (mkResponse 200 _) _ _ eq_refl eq_refl eq_refl eq_refl)).
    left. reflexivity.
  - apply (proj2 (get_drives_pairs_of_value
             (Canned.answering 200
                (PyDict [("value", PyList (map PyDict
                            [[("id", PyStr "d1"); ("name", PyStr "Documents")];
                             [("id", PyStr "d2")]]))])
                0%float)
             "abc123" "tok" (mkResponse 200 _) _ _ eq_refl eq_refl eq_refl eq_refl)
             [[("id", PyStr "d1"); ("name", PyStr "Documents")]; [("id", PyStr "d2")]]).
    reflexivity.
Defined.

Lemma get_children_of_value w drive_id token base_path category response text d elems :
  bad_base_path base_path = false ->
  pool_request w (children_request drive_id token base_path) = Ok response ->
  status response = 200 ->
  decode_utf8 w (data response) = Ok text ->
  json_loads w text = Ok (PyDict d) ->
  lookup "value" d = Some (PyList (map PyDict elems)) ->
  outcome (get_children drive_id token base_path category) w
  = Ok (map entry_of (filter (kept category) elems)).
Proof.
  intros Hpath Hreq Hstatus Hdec Hjson Hvalue.
  unfold get_children. rewrite Hpath, outcome_try_reraise.
  unfold get_children_try. run_io.
  rewrite Hreq. cbn. rewrite Hdec. cbn. rewrite Hjson. cbn.
  rewrite (status_200 _ Hstatus). cbn. rewrite Hvalue. cbn.
  rewrite children_of_objects. reflexivity.
Qed.

(** C2.  On a 200 answer whose body is a JSON object with an array of JSON
    objects under [value]: with category "folder" [get_children] returns the
    entries of exactly the elements that have a [folder] key, in order; with
    no category it returns the entries of all elements; the kind of an entry
    is "folder" when its element has a [folder] key, else "file" when it has a
    [file] key, else "unknown", so an element with neither key is returned
    with kind "unknown" when no category is given. *)
Theorem get_children_filters_and_kinds :
  forall (w : World) (drive_id token : string) (base_path : option string)
         (response : Response) (text : string) (d : dict) (elems : list dict),
    bad_base_path base_path = false ->
    pool_request w (children_request drive_id token base_path) = Ok response ->
    status response = 200 ->
    decode_utf8 w (data response) = Ok text ->
    json_loads w text = Ok (PyDict d) ->
    lookup "value" d = Some (PyList (map PyDict elems)) ->
    outcome (get_children drive_id token base_path (Some "folder")) w
      = Ok (map entry_of (filter (has_key "folder") elems))
    /\
    outcome (get_children drive_id token base_path None) w = Ok (map entry_of elems)
    /\
    (forall e : dict,
       entry_of e
       = (dict_get e "name", dict_get e "webUrl",
          if has_key "folder" e then "folder"
          else if has_key "file" e then "file" else "unknown"))
    /\
    (forall e : dict,
       In e elems -> has_key "folder" e = false -> has_key "file" e = false ->
       exists entries,
         outcome (get_children drive_id token base_path None) w = Ok entries /\
         In (dict_get e "name", dict_get e "webUrl", "unknown") entries).
Proof.
  intros w drive_id token base_path response text d elems
         Hpath Hreq Hstatus Hdec Hjson Hvalue.
  pose proof (fun category =>
    get_children_of_value w drive_id token base_path category response text d elems
      Hpath Hreq Hstatus Hdec Hjson Hvalue) as Hrun.
  assert (Hall : filter (kept None) elems = elems).
  { clear. induction elems as [|e elems IH]; cbn; [reflexivity | now rewrite IH]. }
  split; [exact (Hrun (Some "folder"))|].
  split; [rewrite (Hrun None), Hall; reflexivity|].
  split; [reflexivity|].
  intros e Hin Hfolder Hfile. exists (map entry_of elems).
  split; [rewrite (Hrun None), Hall; reflexivity|].
  replace (dict_get e "name", dict_get e "webUrl", "unknown") with (entry_of e).
  - now apply in_map.
  - unfold entry_of, kind_of_dict. now rewrite Hfolder, Hfile.
Qed.

Lemma get_children_filters_and_kinds_witness :
  outcome (get_children "d1" "tok" (Some "/Shared") (Some "folder"))
    (Canned.answering 200
       (PyDict [("value", PyList (map PyDict
                   [[("name", PyStr "Reports"); ("webUrl", PyStr "https://contoso/Reports");
                     ("folder", PyDict [("childCount", PyInt 2)])];
                    [("name", PyStr "q1.pdf"); ("webUrl", PyStr "https://contoso/q1.pdf");
                     ("file", PyDict [])];
                    [("name", PyStr "Notebook")]]))])
       0%float)
    = Ok [(PyStr "Reports", PyStr "https://contoso/Reports", "folder")]
  /\
  outcome (get_children "d1" "tok" (Some "/Shared") None)
    (Canned.answering 200
       (PyDict [("value", PyList (map PyDict
                   [[("name", PyStr "Reports"); ("webUrl", PyStr "https://contoso/Reports");
                     ("folder", PyDict [("childCount", PyInt 2)])];
                    [("name", PyStr "q1.pdf"); ("webUrl", PyStr "https://contoso/q1.pdf");
                     ("file", PyDict [])];
                    [("name", PyStr "Notebook")]]))])
       0%float)
    = Ok [(PyStr "Reports", PyStr "https://contoso/Reports", "folder");
          (PyStr "q1.pdf", PyStr "https://contoso/q1.pdf", "file");
          (PyStr "Notebook", PyNone, "unknown")].
Proof.
  destruct (get_children_filters_and_kinds
              (Canned.answering 200
                 (PyDict [("value", PyList (map PyDict
                    [[("name", PyStr "Reports"); ("webUrl", PyStr "https://contoso/Reports");
                      ("folder", PyDict [("childCount", PyInt 2)])];
                     [("name", PyStr "q1.pdf"); ("webUrl", PyStr "https://contoso/q1.pdf");
                      ("file", PyDict [])];
                     [("name", PyStr "Notebook")]]))])
                 0%float)
              "d1" "tok" (Some "/Shared") (mkResponse 200 _) _ _
              [[("name", PyStr "Reports"); ("webUrl", PyStr "https://contoso/Reports");
                ("folder", PyDict [("childCount", PyInt 2)])];
               [("name", PyStr "q1.pdf"); ("webUrl", PyStr "https://contoso/q1.pdf");
                ("file", PyDict [])];
               [("name", PyStr "Notebook")]]
              eq_refl eq_refl eq_refl eq_refl eq_refl eq_refl)
    as (Hfolder & Hall & _).
  split; [exact Hfolder | exact Hall].
Defined.

(** ** Retries *)

(** C7, as the code has it.  Every operation hands at most one request to the
    pool and never issues a second one itself.  [get_graph_token], [get_site],
    [get_drives] and [get_children] pass [retries=False] with it; [get_file]
    passes no [retries] argument, which leaves its request under the pool's
    default retry policy. *)
Theorem retries_disabled_except_get_file :
  forall (SCOPE : string) (w : World)
         (tenant_domain client_id client_secret tenant site site_id drive_id token
            file_name : string)
         (base_path category : option string),
    (requests (get_graph_token SCOPE tenant_domain client_id client_secret) w
       = [token_request SCOPE w tenant_domain client_id client_secret] /\
     retries_disabled (token_request SCOPE w tenant_domain client_id client_secret))
    /\
    (requests (get_site tenant site token) w = [site_request tenant site token] /\
     retries_disabled (site_request tenant site token))
    /\
    (requests (get_drives site_id token) w = [drives_request site_id token] /\
     retries_disabled (drives_request site_id token))
    /\
    (requests (get_children drive_id token base_path category) w
       = (if bad_base_path base_path then []
          else [children_request drive_id token base_path]) /\
     retries_disabled (children_request drive_id token base_path))
    /\
    (requests (get_file drive_id token file_name base_path) w
       = (if bad_base_path base_path then []
          else [file_request drive_id token file_name base_path]) /\
     retries (file_request drive_id token file_name base_path) = None).
Proof.
  intros. repeat apply conj; try reflexivity; auto with trace.
  - destruct (bad_base_path base_path) eqn:Hpath; [|auto with trace].
    unfold get_children. rewrite Hpath. reflexivity.
  - destruct (bad_base_path base_path) eqn:Hpath; [|auto with trace].
    unfold get_file. rewrite Hpath. reflexivity.
Qed.

(** C7 as the specification words it fails on [get_file]: the one request of
    a file fetch does not carry [retries=False]. *)
Lemma retries_claim_counterexample :
  requests (get_file "d1" "tok" "q1.pdf" (Some "/Reports"))
    (Canned.world (fun _ => Ok (mkResponse 200 (list_byte_of_string "%PDF-1.7")))
       [] 0%float)
    = [mkRequest "GET"
         "https://graph.microsoft.com/v1.0/drives/d1/root:/Reports/q1.pdf:/content"
         [("Accept", "application/json"); ("Authorization", "Bearer tok")]
         None None]
  /\ ~ retries_disabled
       (mkRequest "GET"
          "https://graph.microsoft.com/v1.0/drives/d1/root:/Reports/q1.pdf:/content"
          [("Accept", "application/json"); ("Authorization", "Bearer tok")]
          None None).
Proof.
  split; [reflexivity|]. unfold retries_disabled. cbn. discriminate.
Qed.

(** ** Further properties of the operations *)

(** On a non-200 answer with a JSON body, each Graph operation ends its [try]
    body the way [raise_error_message] ends. *)
Lemma non200_try_outcome (w : World) tenant site site_id drive_id token file_name
      base_path category (response : Response) (text : string) (response_data : py) :
  status response <> 200 ->
  decode_utf8 w (data response) = Ok text ->
  json_loads w text = Ok response_data ->
  (pool_request w (site_request tenant site token) = Ok response ->
   outcome (get_site_try tenant site token) w
   = outcome (@raise_error_message py response_data) w) /\
  (pool_request w (drives_request site_id token) = Ok response ->
   outcome (get_drives_try site_id token) w
   = outcome (@raise_error_message (list (py * py)) response_data) w) /\
  (pool_request w (children_request drive_id token base_path) = Ok response ->
   outcome (get_children_try drive_id token base_path category) w
   = outcome (@raise_error_message (list (py * py * string)) response_data) w) /\
  (pool_request w (file_request drive_id token file_name base_path) = Ok response ->
   outcome (get_file_try drive_id token file_name base_path) w
   = outcome (@raise_error_message BytesIO response_data) w).
Proof.
  intros Hstatus Hdec Hjson.
  unfold get_site_try, get_drives_try, get_children_try, get_file_try.
  repeat apply conj; intros H; run_io; rewrite H; cbn;
    try rewrite (status_not_200 _ Hstatus); cbn; rewrite Hdec; cbn; rewrite Hjson; cbn;
    try rewrite (status_not_200 _ Hstatus); cbn;
    (destruct (py_getitem response_data _) as [error|e]; cbn; [|reflexivity]);
    destruct (py_getitem error _); reflexivity.
Qed.

Lemma outcome_raise_error_message {A} (w : World) (response_data : py) :
  outcome (@raise_error_message A response_data) w
  = match rbind (py_getitem response_data "error")
                (fun error => py_getitem error "message") with
    | Ok v => Err (Exception v)
    | Err e => Err e
    end.
Proof.
  run_io. destruct (py_getitem response_data _) as [error|e]; cbn; [|reflexivity].
  destruct (py_getitem error _); reflexivity.
Qed.

(** X1.  On an answer whose body is a JSON object, [get_site] returns the
    [id] value as it was sent when the status is 200, and [None] when the key
    is missing (it does not raise for a missing id); on any other status with
    an [error.message] value it raises "Invalid Site: " followed by [str] of
    that value. *)
Theorem get_site_id_or_provider_message :
  forall (w : World) (tenant site token : string) (response : Response)
         (text : string) (d : dict),
    pool_request w (site_request tenant site token) = Ok response ->
    decode_utf8 w (data response) = Ok text ->
    json_loads w text = Ok (PyDict d) ->
    (status response = 200 ->
       outcome (get_site tenant site token) w = Ok (dict_get d "id") /\
       (lookup "id" d = None -> outcome (get_site tenant site token) w = Ok PyNone))
    /\
    (status response <> 200 ->
       forall error v,
         lookup "error" d = Some error ->
         py_getitem error "message" = Ok v ->
         raised_message (get_site tenant site token) w
           = Some ("Invalid Site: " ++ py_str w v)).
Proof.
  intros w tenant site token response text d Hreq Hdec Hjson. split.
  - intros Hstatus.
    assert (Hrun : outcome (get_site tenant site token) w = Ok (dict_get d "id")).
    { unfold get_site. rewrite outcome_try_reraise. unfold get_site_try. run_io.
      rewrite Hreq. cbn. rewrite Hdec. cbn. rewrite Hjson. cbn.
      rewrite (status_200 _ Hstatus). reflexivity. }
    split; [exact Hrun|]. intros Hnone. rewrite Hrun. unfold dict_get.
    now rewrite Hnone.
  - intros Hstatus error v Herror Hmessage.
    destruct (non200_try_outcome w tenant site "" "" token "" None None
                response text (PyDict d) Hstatus Hdec Hjson) as (Hsite & _).
    unfold raised_message, get_site.
    rewrite outcome_try_reraise, (Hsite Hreq), outcome_raise_error_message.
    cbn [py_getitem]. rewrite Herror. cbn [rbind]. rewrite Hmessage. reflexivity.
Qed.

Lemma get_site_id_or_provider_message_witness :
  outcome (get_site "contoso" "team" "tok")
    (Canned.answering 200 (PyDict [("displayName", PyStr "Team")]) 0%float)
    = Ok PyNone
  /\
  raised_message (get_site "contoso" "team" "tok")
    (Canned.answering 403
       (PyDict [("error", PyDict [("code", PyStr "accessDenied");
                                  ("message", PyStr "Access denied")])])
       0%float)
    = Some "Invalid Site: Access denied".
Proof.
  split.
  - destruct (get_site_id_or_provider_message
                (Canned.answering 200 (PyDict [("displayName", PyStr "Team")]) 0%float)
                "contoso" "team" "tok" (mkResponse 200 _) _ _ eq_refl eq_refl eq_refl)
      as [Hok _].
    destruct (Hok eq_refl) as [_ Hnone]. apply Hnone. reflexivity.
  - destruct (get_site_id_or_provider_message
                (Canned.answering 403
                   (PyDict [("error", PyDict [("code", PyStr "accessDenied");
                                              ("message", PyStr "Access denied")])])
                   0%float)
                "contoso" "team" "tok" (mkResponse 403 _) _ _ eq_refl eq_refl eq_refl)
      as [_ Hfail].
    apply (Hfail ltac:(cbn; lia) _ (PyStr "Access denied") eq_refl eq_refl).
Defined.

(** X2.  The body is decoded before the status is looked at in
    [get_graph_token], [get_site], [get_drives] and [get_children]: when
    decoding it as UTF-8 or as JSON raises, the call raises the decoder's
    message under the label of the operation whatever the status, 200
    included.  [get_file] decodes the body only on a status other than 200. *)
Theorem undecodable_body_reported :
  forall (SCOPE : string) (w : World)
         (tenant_domain client_id client_secret tenant site site_id drive_id token
            file_name : string)
         (base_path category : option string) (response : Response) (cause : exn),
    rbind (decode_utf8 w (data response)) (json_loads w) = Err cause ->
    (pool_request w (token_request SCOPE w tenant_domain client_id client_secret)
       = Ok response ->
     raised_message (get_graph_token SCOPE tenant_domain client_id client_secret) w
       = Some ("Error during token retrieval: " ++ str_exn w cause))
    /\
    (pool_request w (site_request tenant site token) = Ok response ->
     raised_message (get_site tenant site token) w
       = Some ("Invalid Site: " ++ str_exn w cause))
    /\
    (pool_request w (drives_request site_id token) = Ok response ->
     raised_message (get_drives site_id token) w
       = Some ("Invalid Site: " ++ str_exn w cause))
    /\
    (bad_base_path base_path = false ->
     pool_request w (children_request drive_id token base_path) = Ok response ->
     raised_message (get_children drive_id token base_path category) w
       = Some ("Invalid Site: " ++ str_exn w cause))
    /\
    (bad_base_path base_path = false ->
     pool_request w (file_request drive_id token file_name base_path) = Ok response ->
     (status response <> 200 ->
      raised_message (get_file drive_id token file_name base_path) w
        = Some ("Invalid Site: " ++ str_exn w cause)) /\
     (status response = 200 ->
      outcome (get_file drive_id token file_name base_path) w
        = Ok (BytesIO_of (data response)))).
Proof.
  intros SCOPE w tenant_domain client_id client_secret tenant site site_id drive_id
         token file_name base_path category response cause Hbody.
  assert (Hloads : forall A (k : py -> io A),
            snd (bind (loads_body response) k w) = Err cause).
  { intros A k. run_io.
    destruct (decode_utf8 w (data response)) as [text|e]; cbn in Hbody |- *.
    - rewrite Hbody. reflexivity.
    - injection Hbody as ->. reflexivity. }
  unfold raised_message.
  repeat apply conj.
  - intros Hreq. unfold get_graph_token. rewrite outcome_try_reraise.
    unfold get_graph_token_try, outcome.
    unfold bind at 1, ask. cbn [fst snd app]. unfold bind at 1, http_request.
    rewrite Hreq.
    match goal with |- context [bind (loads_body response) ?k w] =>
      specialize (Hloads _ k); destruct (bind (loads_body response) k w) as [t r] end.
    cbn in Hloads |- *. rewrite Hloads. reflexivity.
  - intros Hreq. unfold get_site. rewrite outcome_try_reraise.
    unfold get_site_try, outcome. unfold bind at 1, http_request. rewrite Hreq.
    match goal with |- context [bind (loads_body response) ?k w] =>
      specialize (Hloads _ k); destruct (bind (loads_body response) k w) as [t r] end.
    cbn in Hloads |- *. rewrite Hloads. reflexivity.
  - intros Hreq. unfold get_drives. rewrite outcome_try_reraise.
    unfold get_drives_try, outcome. unfold bind at 1, http_request. rewrite Hreq.
    match goal with |- context [bind (loads_body response) ?k w] =>
      specialize (Hloads _ k); destruct (bind (loads_body response) k w) as [t r] end.
    cbn in Hloads |- *. rewrite Hloads. reflexivity.
  - intros Hpath Hreq. unfold get_children. rewrite Hpath, outcome_try_reraise.
    unfold get_children_try, outcome. unfold bind at 1, http_request. rewrite Hreq.
    match goal with |- context [bind (loads_body response) ?k w] =>
      specialize (Hloads _ k); destruct (bind (loads_body response) k w) as [t r] end.
    cbn in Hloads |- *. rewrite Hloads. reflexivity.
  - intros Hpath Hreq. unfold get_file. rewrite Hpath, outcome_try_reraise.
    split; intros Hstatus.
    + unfold get_file_try, outcome. unfold bind at 1, http_request. rewrite Hreq.
      rewrite (status_not_200 _ Hstatus).
      match goal with |- context [bind (loads_body response) ?k w] =>
        specialize (Hloads _ k); destruct (bind (loads_body response) k w) as [t r] end.
      cbn in Hloads |- *. rewrite Hloads. reflexivity.
    + unfold get_file_try. run_io. rewrite Hreq. cbn.
      rewrite (status_200 _ Hstatus). reflexivity.
Qed.

Lemma undecodable_body_reported_witness :
  let page := list_byte_of_string "<html>Bad Gateway</html>" in
  let w := Canned.world (fun _ => Ok (mkResponse 200 page)) [] 0%float in
  raised_message (get_graph_token Canned.SCOPE "contoso.onmicrosoft.com" "id" "secret") w
    = Some "Error during token retrieval: Expecting value: line 1 column 1 (char 0)"
  /\ raised_message (get_site "contoso" "team" "tok") w
     = Some "Invalid Site: Expecting value: line 1 column 1 (char 0)"
  /\ raised_message (get_drives "abc123" "tok") w
     = Some "Invalid Site: Expecting value: line 1 column 1 (char 0)"
  /\ raised_message (get_children "d1" "tok" None None) w
     = Some "Invalid Site: Expecting value: line 1 column 1 (char 0)"
  /\ outcome (get_file "d1" "tok" "q1.pdf" None) w = Ok (BytesIO_of page).
Proof.
  intros page w.
  destruct (undecodable_body_reported Canned.SCOPE w "contoso.onmicrosoft.com" "id"
              "secret" "contoso" "team" "abc123" "d1" "tok" "q1.pdf" None None
              (mkResponse 200 page)
              (LibraryError "Expecting value: line 1 column 1 (char 0)") eq_refl)
    as (Htoken & Hsite & Hdrives & Hchildren & Hfile).
  split; [|split; [|split; [|split]]].
  - apply Htoken. reflexivity.
  - apply Hsite. reflexivity.
  - apply Hdrives. reflexivity.
  - apply Hchildren; reflexivity.
  - apply Hfile; reflexivity.
Defined.

(** X3.  On a status other than 200 with a JSON object in the body, the four
    Graph operations index [error] and then [message] without a default: when
    the [error] key is missing the message raised is "Invalid Site: " followed
    by the [repr] of the key name "error", and when [error] is an object
    without [message] it is the [repr] of "message"; the text the provider
    sent does not appear. *)
Theorem missing_error_fields_name_the_key :
  forall (w : World) (tenant site site_id drive_id token file_name : string)
         (base_path category : option string) (response : Response)
         (text : string) (d : dict) (key : string),
    status response <> 200 ->
    decode_utf8 w (data response) = Ok text ->
    json_loads w text = Ok (PyDict d) ->
    (lookup "error" d = None /\ key = "error" \/
     exists error, lookup "error" d = Some (PyDict error) /\
                   lookup "message" error = None /\ key = "message") ->
    (pool_request w (site_request tenant site token) = Ok response ->
     raised_message (get_site tenant site token) w
       = Some ("Invalid Site: " ++ repr_str w key))
    /\
    (pool_request w (drives_request site_id token) = Ok response ->
     raised_message (get_drives site_id token) w
       = Some ("Invalid Site: " ++ repr_str w key))
    /\
    (bad_base_path base_path = false ->
     pool_request w (children_request drive_id token base_path) = Ok response ->
     raised_message (get_children drive_id token base_path category) w
       = Some ("Invalid Site: " ++ repr_str w key))
    /\
    (bad_base_path base_path = false ->
     pool_request w (file_request drive_id token file_name base_path) = Ok response ->
     raised_message (get_file drive_id token file_name base_path) w
       = Some ("Invalid Site: " ++ repr_str w key)).
Proof.
  intros w tenant site site_id drive_id token file_name base_path category response
         text d key Hstatus Hdec Hjson Hmissing.
  assert (Hcause : forall A,
            outcome (@raise_error_message A (PyDict d)) w = Err (KeyError key)).
  { intros A. rewrite outcome_raise_error_message. cbn [py_getitem].
    destruct Hmissing as [[Hnone ->]|(error & Herror & Hnone & ->)].
    - rewrite Hnone. reflexivity.
    - rewrite Herror. cbn [rbind py_getitem]. rewrite Hnone. reflexivity. }
  destruct (non200_try_outcome w tenant site site_id drive_id token file_name base_path
              category response text (PyDict d) Hstatus Hdec Hjson)
    as (Hsite & Hdrives & Hchildren & Hfile).
  unfold raised_message. repeat apply conj.
  - intros Hreq. unfold get_site.
    rewrite outcome_try_reraise, (Hsite Hreq), Hcause. reflexivity.
  - intros Hreq. unfold get_drives.
    rewrite outcome_try_reraise, (Hdrives Hreq), Hcause. reflexivity.
  - intros Hpath Hreq. unfold get_children.
    rewrite Hpath, outcome_try_reraise, (Hchildren Hreq), Hcause. reflexivity.
  - intros Hpath Hreq. unfold get_file.
    rewrite Hpath, outcome_try_reraise, (Hfile Hreq), Hcause. reflexivity.
Qed.

Lemma missing_error_fields_name_the_key_witness :
  let w := Canned.answering 429 (PyDict [("message", PyStr "Too many requests")])
             0%float in
  raised_message (get_site "contoso" "team" "tok") w = Some "Invalid Site: 'error'"
  /\ raised_message (get_drives "abc123" "tok") w = Some "Invalid Site: 'error'"
  /\ raised_message (get_children "d1" "tok" (Some "/Reports") None) w
     = Some "Invalid Site: 'error'"
  /\ raised_message (get_file "d1" "tok" "q1.pdf" (Some "/Reports")) w
     = Some "Invalid Site: 'error'".
Proof.
  intros w.
  destruct (missing_error_fields_name_the_key w "contoso" "team" "abc123" "d1" "tok"
              "q1.pdf" (Some "/Reports") None
              (Canned.json_response 429 (PyDict [("message", PyStr "Too many requests")]))
              _ [("message", PyStr "Too many requests")] "error"
              ltac:(cbn; lia) eq_refl eq_refl (or_introl (conj eq_refl eq_refl)))
    as (Hsite & Hdrives & Hchildren & Hfile).
  split; [|split; [|split]].
  - apply Hsite. reflexivity.
  - apply Hdrives. reflexivity.
  - apply Hchildren; reflexivity.
  - apply Hfile; reflexivity.
Defined.

Lemma filter_none_kept (elems : list dict) : filter (kept None) elems = elems.
Proof. induction elems as [|e elems IH]; cbn; [reflexivity | now rewrite IH]. Qed.

(** X4.  The category of [get_children] is any key name, not only "folder"
    or "file".  On a 200 answer with an array of JSON objects under [value],
    the result for category [c] is the entries of the elements that have the
    key [c], in the order of the answer; it is empty, not an error, when no
    element has the key; and every entry listed under a category is also
    listed, unchanged, without one. *)
Theorem get_children_filters_by_any_key :
  forall (w : World) (drive_id token c : string) (base_path : option string)
         (response : Response) (text : string) (d : dict) (elems : list dict),
    bad_base_path base_path = false ->
    pool_request w (children_request drive_id token base_path) = Ok response ->
    status response = 200 ->
    decode_utf8 w (data response) = Ok text ->
    json_loads w text = Ok (PyDict d) ->
    lookup "value" d = Some (PyList (map PyDict elems)) ->
    outcome (get_children drive_id token base_path (Some c)) w
      = Ok (map entry_of (filter (has_key c) elems))
    /\
    ((forall e, In e elems -> has_key c e = false) ->
     outcome (get_children drive_id token base_path (Some c)) w = Ok [])
    /\
    (forall filtered everything,
       outcome (get_children drive_id token base_path (Some c)) w = Ok filtered ->
       outcome (get_children drive_id token base_path None) w = Ok everything ->
       incl filtered everything /\ (length filtered <= length everything)%nat).
Proof.
  intros w drive_id token c base_path response text d elems
         Hpath Hreq Hstatus Hdec Hjson Hvalue.
  pose proof (fun category =>
    get_children_of_value w drive_id token base_path category response text d elems
      Hpath Hreq Hstatus Hdec Hjson Hvalue) as Hrun.
  split; [exact (Hrun (Some c))|]. split.
  - intros Hnone. rewrite (Hrun (Some c)). change (kept (Some c)) with (has_key c).
    replace (filter (has_key c) elems) with (@nil dict); [reflexivity|].
    clear - Hnone. induction elems as [|e elems IH]; cbn; [reflexivity|].
    rewrite (Hnone e (or_introl eq_refl)). apply IH.
    intros e' He'. apply Hnone. now right.
  - intros filtered everything Hsome Hall.
    rewrite (Hrun (Some c)) in Hsome. rewrite (Hrun None), filter_none_kept in Hall.
    injection Hsome as <-. injection Hall as <-. split.
    + intros x Hx. apply in_map_iff in Hx. destruct Hx as (e & <- & He).
      apply in_map. apply filter_In in He. tauto.
    + rewrite !length_map. apply filter_length_le.
Qed.

Lemma get_children_filters_by_any_key_witness :
  outcome (get_children "d1" "tok" None (Some "package"))
    (Canned.answering 200
       (PyDict [("value", PyList (map PyDict
                   [[("name", PyStr "Notebook"); ("package", PyDict [("type", PyStr "oneNote")])];
                    [("name", PyStr "q1.pdf"); ("file", PyDict [])]]))])
       0%float)
    = Ok [(PyStr "Notebook", PyNone, "unknown")].
Proof.
  apply (proj1 (get_children_filters_by_any_key
           (Canned.answering 200
              (PyDict [("value", PyList (map PyDict
                 [[("name", PyStr "Notebook"); ("package", PyDict [("type", PyStr "oneNote")])];
                  [("name", PyStr "q1.pdf"); ("file", PyDict [])]]))])
              0%float)
           "d1" "tok" "package" None (mkResponse 200 _) _ _
           [[("name", PyStr "Notebook"); ("package", PyDict [("type", PyStr "oneNote")])];
            [("name", PyStr "q1.pdf"); ("file", PyDict [])]]
           eq_refl eq_refl eq_refl eq_refl eq_refl eq_refl)).
Defined.

(** X5.  What the kind of a listed entry can be under a filter.  With
    category "folder" every entry has kind "folder".  With category "file"
    every entry has kind "file" or "folder", never "unknown", and an element
    that carries both keys is listed with kind "folder": the [folder] key
    takes precedence over the filter that selected it. *)
Theorem filtered_entries_have_known_kinds :
  forall (w : World) (drive_id token : string) (base_path : option string)
         (response : Response) (text : string) (d : dict) (elems : list dict),
    bad_base_path base_path = false ->
    pool_request w (children_request drive_id token base_path) = Ok response ->
    status response = 200 ->
    decode_utf8 w (data response) = Ok text ->
    json_loads w text = Ok (PyDict d) ->
    lookup "value" d = Some (PyList (map PyDict elems)) ->
    (forall entries,
       outcome (get_children drive_id token base_path (Some "folder")) w = Ok entries ->
       Forall (fun x => snd x = "folder") entries)
    /\
    (forall entries,
       outcome (get_children drive_id token base_path (Some "file")) w = Ok entries ->
       Forall (fun x => snd x = "file" \/ snd x = "folder") entries)
    /\
    (forall e,
       In e elems -> has_key "folder" e = true -> has_key "file" e = true ->
       exists entries,
         outcome (get_children drive_id token base_path (Some "file")) w = Ok entries /\
         In (dict_get e "name", dict_get e "webUrl", "folder") entries).
Proof.
  intros w drive_id token base_path response text d elems
         Hpath Hreq Hstatus Hdec Hjson Hvalue.
  pose proof (fun category =>
    get_children_of_value w drive_id token base_path category response text d elems
      Hpath Hreq Hstatus Hdec Hjson Hvalue) as Hrun.
  split; [|split].
  - intros entries H. rewrite (Hrun (Some "folder")) in H. injection H as <-.
    apply Forall_forall. intros x Hx. apply in_map_iff in Hx.
    destruct Hx as (e & <- & He). apply filter_In in He. destruct He as [_ He].
    cbn [kept] in He. unfold entry_of, kind_of_dict. cbn [snd]. now rewrite He.
  - intros entries H. rewrite (Hrun (Some "file")) in H. injection H as <-.
    apply Forall_forall. intros x Hx. apply in_map_iff in Hx.
    destruct Hx as (e & <- & He). apply filter_In in He. destruct He as [_ He].
    cbn [kept] in He. unfold entry_of, kind_of_dict. cbn [snd]. rewrite He.
    destruct (has_key "folder" e); auto.
  - intros e Hin Hfolder Hfile. eexists. split; [exact (Hrun (Some "file"))|].
    replace (dict_get e "name", dict_get e "webUrl", "folder") with (entry_of e).
    + apply in_map. apply filter_In. split; [exact Hin | exact Hfile].
    + unfold entry_of, kind_of_dict. now rewrite Hfolder.
Qed.

Lemma filtered_entries_have_known_kinds_witness :
  exists entries,
    outcome (get_children "d1" "tok" None (Some "file"))
      (Canned.answering 200
         (PyDict [("value", PyList (map PyDict
                     [[("name", PyStr "Bundle"); ("folder", PyDict []); ("file", PyDict [])]]))])
         0%float)
      = Ok entries /\
    In (PyStr "Bundle", PyNone, "folder") entries.
Proof.
  apply (proj2 (proj2 (filtered_entries_have_known_kinds
           (Canned.answering 200
              (PyDict [("value", PyList (map PyDict
                 [[("name", PyStr "Bundle"); ("folder", PyDict []); ("file", PyDict [])]]))])
              0%float)
           "d1" "tok" None (mkResponse 200 _) _ _
           [[("name", PyStr "Bundle"); ("folder", PyDict []); ("file", PyDict [])]]
           eq_refl eq_refl eq_refl eq_refl eq_refl eq_refl))
         [("name", PyStr "Bundle"); ("folder", PyDict []); ("file", PyDict [])]).
  - left. reflexivity.
  - reflexivity.
  - reflexivity.
Defined.

(** ** Listings of answers that are not arrays of objects *)

(** The outcome of a listing on a 200 answer with a JSON object body, in
    terms of what sits under [value]. *)
Lemma outcome_get_drives_200 w site_id token response text d :
  pool_request w (drives_request site_id token) = Ok response ->
  status response = 200 ->
  decode_utf8 w (data response) = Ok text ->
  json_loads w text = Ok (PyDict d) ->
  outcome (get_drives site_id token) w
  = match match dict_get d "value" with
          | PyNone => Ok []
          | raw => rbind (py_iter raw) drives_of
          end with
    | Ok drives => Ok drives
    | Err cause => Err (Exception (PyStr ("Invalid Site: " ++ str_exn w cause)))
    end.
Proof.
  intros Hreq Hstatus Hdec Hjson. unfold get_drives. rewrite outcome_try_reraise.
  unfold get_drives_try. run_io.
  rewrite Hreq. cbn. rewrite Hdec. cbn. rewrite Hjson. cbn.
  rewrite (status_200 _ Hstatus). cbn. fold (dict_get d "value").
  destruct (dict_get d "value"); cbn; try reflexivity;
    match goal with |- context [drives_of ?l] => destruct (drives_of l) end;
    reflexivity.
Qed.

Lemma outcome_get_children_200 w drive_id token base_path category response text d :
  bad_base_path base_path = false ->
  pool_request w (children_request drive_id token base_path) = Ok response ->
  status response = 200 ->
  decode_utf8 w (data response) = Ok text ->
  json_loads w text = Ok (PyDict d) ->
  outcome (get_children drive_id token base_path category) w
  = match match dict_get d "value" with
          | PyNone => Ok []
          | raw => rbind (py_iter raw) (children_of category)
          end with
    | Ok drives => Ok drives
    | Err cause => Err (Exception (PyStr ("Invalid Site: " ++ str_exn w cause)))
    end.
Proof.
  intros Hpath Hreq Hstatus Hdec Hjson. unfold get_children.
  rewrite Hpath, outcome_try_reraise. unfold get_children_try. run_io.
  rewrite Hreq. cbn. rewrite Hdec. cbn. rewrite Hjson. cbn.
  rewrite (status_200 _ Hstatus). cbn. fold (dict_get d "value").
  destruct (dict_get d "value"); cbn; try reflexivity;
    match goal with |- context [children_of ?c ?l] => destruct (children_of c l) end;
    reflexivity.
Qed.

Lemma drives_of_strict (l : list py) :
  existsb (fun v => negb (is_object v)) l = true -> is_ok (drives_of l) = false.
Proof.
  induction l as [|v l IH]; cbn [existsb drives_of]; [discriminate|].
  intros H. apply orb_true_iff in H.
  destruct v; cbn [py_get rbind is_ok]; try reflexivity.
  destruct H as [H|H]; [discriminate|].
  specialize (IH H). destruct (drives_of l); [discriminate | reflexivity].
Qed.

Lemma children_of_tail_fails (category : option string) (v : py) (l : list py) :
  is_ok (children_of category l) = false ->
  is_ok (children_of category (v :: l)) = false.
Proof.
  intros H. cbn [children_of].
  destruct (category_keeps category v) as [[|]|]; cbn [rbind is_ok];
    [|exact H|reflexivity].
  destruct (py_get v "name" PyNone); cbn [rbind is_ok]; [|reflexivity].
  destruct (py_get v "webUrl" PyNone); cbn [rbind is_ok]; [|reflexivity].
  destruct (kind_of v); cbn [rbind is_ok]; [|reflexivity].
  destruct (children_of category l); [discriminate | reflexivity].
Qed.

Lemma children_of_strict (l : list py) :
  existsb (fun v => negb (is_object v)) l = true ->
  is_ok (children_of None l) = false.
Proof.
  induction l as [|v l IH]; cbn [existsb]; [discriminate|].
  intros H. apply orb_true_iff in H. destruct H as [H|H].
  - destruct v; try discriminate; reflexivity.
  - apply children_of_tail_fails, IH, H.
Qed.

Lemma children_of_scalar (category : option string) (l : list py) :
  existsb is_scalar l = true -> is_ok (children_of category l) = false.
Proof.
  induction l as [|v l IH]; cbn [existsb]; [discriminate|].
  intros H. apply orb_true_iff in H. destruct H as [H|H].
  - destruct v; try discriminate; destruct category; reflexivity.
  - apply children_of_tail_fails, IH, H.
Qed.

(** X6.  A listing gives no partial result.  On a 200 answer with an array
    under [value], one element that is not a JSON object, at any position,
    makes [get_drives] raise, and [get_children] without a category too; one
    element that is null, a boolean or a number makes [get_children] raise
    under every category. *)
Theorem listings_give_no_partial_result :
  forall (w : World) (site_id drive_id token : string) (base_path : option string)
         (response : Response) (text : string) (d : dict) (elems : list py),
    status response = 200 ->
    decode_utf8 w (data response) = Ok text ->
    json_loads w text = Ok (PyDict d) ->
    lookup "value" d = Some (PyList elems) ->
    (existsb (fun v => negb (is_object v)) elems = true ->
     pool_request w (drives_request site_id token) = Ok response ->
     is_ok (outcome (get_drives site_id token) w) = false)
    /\
    (existsb (fun v => negb (is_object v)) elems = true ->
     bad_base_path base_path = false ->
     pool_request w (children_request drive_id token base_path) = Ok response ->
     is_ok (outcome (get_children drive_id token base_path None) w) = false)
    /\
    (existsb is_scalar elems = true ->
     bad_base_path base_path = false ->
     pool_request w (children_request drive_id token base_path) = Ok response ->
     forall category,
       is_ok (outcome (get_children drive_id token base_path category) w) = false).
Proof.
  intros w site_id drive_id token base_path response text d elems
         Hstatus Hdec Hjson Hvalue.
  assert (Hraw : dict_get d "value" = PyList elems)
    by (unfold dict_get; now rewrite Hvalue).
  repeat apply conj.
  - intros Hbad Hreq.
    rewrite (outcome_get_drives_200 w _ _ _ _ _ Hreq Hstatus Hdec Hjson), Hraw.
    cbn [py_iter rbind]. pose proof (drives_of_strict elems Hbad) as H.
    destruct (drives_of elems); [discriminate | reflexivity].
  - intros Hbad Hpath Hreq.
    rewrite (outcome_get_children_200 w _ _ _ None _ _ _ Hpath Hreq Hstatus Hdec Hjson),
      Hraw.
    cbn [py_iter rbind]. pose proof (children_of_strict elems Hbad) as H.
    destruct (children_of None elems); [discriminate | reflexivity].
  - intros Hbad Hpath Hreq category.
    rewrite (outcome_get_children_200 w _ _ _ category _ _ _ Hpath Hreq Hstatus Hdec
               Hjson), Hraw.
    cbn [py_iter rbind]. pose proof (children_of_scalar category elems Hbad) as H.
    destruct (children_of category elems); [discriminate | reflexivity].
Qed.

Lemma listings_give_no_partial_result_witness :
  let payload := PyDict [("value", PyList [PyDict [("id", PyStr "d1");
                                                   ("name", PyStr "Documents")];
                                           PyNone])] in
  let w := Canned.answering 200 payload 0%float in
  is_ok (outcome (get_drives "abc123" "tok") w) = false
  /\ is_ok (outcome (get_children "d1" "tok" None None) w) = false
  /\ is_ok (outcome (get_children "d1" "tok" None (Some "folder")) w) = false.
Proof.
  intros payload w.
  destruct (listings_give_no_partial_result w "abc123" "d1" "tok" None
              (Canned.json_response 200 payload) _
              [("value", PyList [PyDict [("id", PyStr "d1"); ("name", PyStr "Documents")];
                                 PyNone])]
              [PyDict [("id", PyStr "d1"); ("name", PyStr "Documents")]; PyNone]
              eq_refl eq_refl eq_refl eq_refl)
    as (Hdrives & Hchildren & Hscalar).
  split; [|split].
  - apply Hdrives; reflexivity.
  - apply Hchildren; reflexivity.
  - apply Hscalar; reflexivity.
Defined.

(** X7.  Only a missing or null [value] counts as "no entries".  On a 200
    answer whose [value] is a boolean or a number (zero and false included),
    [get_drives] and [get_children] raise "Invalid Site: " followed by the
    interpreter's complaint that the value is not iterable; on one whose
    [value] is an empty object or an empty string they return the empty
    list. *)
Theorem value_must_be_iterable :
  forall (w : World) (site_id drive_id token : string)
         (base_path category : option string)
         (response : Response) (text : string) (d : dict) (raw : py),
    status response = 200 ->
    decode_utf8 w (data response) = Ok text ->
    json_loads w text = Ok (PyDict d) ->
    lookup "value" d = Some raw ->
    (is_scalar raw = true -> raw <> PyNone ->
       (pool_request w (drives_request site_id token) = Ok response ->
        raised_message (get_drives site_id token) w
          = Some ("Invalid Site: '" ++ type_name raw ++ "' object is not iterable"))
       /\
       (bad_base_path base_path = false ->
        pool_request w (children_request drive_id token base_path) = Ok response ->
        raised_message (get_children drive_id token base_path category) w
          = Some ("Invalid Site: '" ++ type_name raw ++ "' object is not iterable")))
    /\
    (raw = PyDict [] \/ raw = PyStr "" ->
       (pool_request w (drives_request site_id token) = Ok response ->
        outcome (get_drives site_id token) w = Ok [])
       /\
       (bad_base_path base_path = false ->
        pool_request w (children_request drive_id token base_path) = Ok response ->
        outcome (get_children drive_id token base_path category) w = Ok [])).
Proof.
  intros w site_id drive_id token base_path category response text d raw
         Hstatus Hdec Hjson Hvalue.
  assert (Hraw : dict_get d "value" = raw) by (unfold dict_get; now rewrite Hvalue).
  split.
  - intros Hscalar Hsome. unfold raised_message. split.
    + intros Hreq.
      rewrite (outcome_get_drives_200 w _ _ _ _ _ Hreq Hstatus Hdec Hjson), Hraw.
      destruct raw; try discriminate; try reflexivity. now elim Hsome.
    + intros Hpath Hreq.
      rewrite (outcome_get_children_200 w _ _ _ category _ _ _ Hpath Hreq Hstatus Hdec
                 Hjson), Hraw.
      destruct raw; try discriminate; try reflexivity. now elim Hsome.
  - intros Hempty. split.
    + intros Hreq.
      rewrite (outcome_get_drives_200 w _ _ _ _ _ Hreq Hstatus Hdec Hjson), Hraw.
      destruct Hempty as [-> | ->]; reflexivity.
    + intros Hpath Hreq.
      rewrite (outcome_get_children_200 w _ _ _ category _ _ _ Hpath Hreq Hstatus Hdec
                 Hjson), Hraw.
      destruct Hempty as [-> | ->]; reflexivity.
Qed.

Lemma value_must_be_iterable_witness :
  let w := Canned.answering 200 (PyDict [("value", PyInt 0)]) 0%float in
  raised_message (get_drives "abc123" "tok") w
    = Some "Invalid Site: 'int' object is not iterable"
  /\ raised_message (get_children "d1" "tok" None (Some "folder")) w
     = Some "Invalid Site: 'int' object is not iterable".
Proof.
  intros w.
  destruct (value_must_be_iterable w "abc123" "d1" "tok" None (Some "folder")
              (Canned.json_response 200 (PyDict [("value", PyInt 0)])) _
              [("value", PyInt 0)] (PyInt 0) eq_refl eq_refl eq_refl eq_refl)
    as [Hscalar _].
  destruct (Hscalar eq_refl ltac:(discriminate)) as [Hdrives Hchildren].
  split.
  - apply Hdrives. reflexivity.
  - apply Hchildren; reflexivity.
Defined.

(** ** The lifetime of a token *)

(** X8.  [expires_in] must be a number.  On a 200 answer whose [expires_in]
    is a string, an array or an object, [get_graph_token] raises, token or no
    token in the answer: the sum with the clock reading is a [TypeError], and
    the message is the label followed by the interpreter's text for it. *)
Theorem expires_in_must_be_a_number :
  forall (SCOPE : string) (w : World) (tenant_domain client_id client_secret : string)
         (response : Response) (text : string) (d : dict) (v : py),
    pool_request w (token_request SCOPE w tenant_domain client_id client_secret)
      = Ok response ->
    status response = 200 ->
    decode_utf8 w (data response) = Ok text ->
    json_loads w text = Ok (PyDict d) ->
    lookup "expires_in" d = Some v ->
    is_scalar v = false ->
    raised_message (get_graph_token SCOPE tenant_domain client_id client_secret) w
      = Some ("Error during token retrieval: "
                ++ "unsupported operand type(s) for +: 'float' and '"
                ++ type_name v ++ "'").
Proof.
  intros SCOPE w tenant_domain client_id client_secret response text d v
         Hreq Hstatus Hdec Hjson Hv Hkind.
  unfold raised_message, get_graph_token. rewrite outcome_try_reraise.
  unfold get_graph_token_try. run_io.
  rewrite Hreq. cbn. rewrite Hdec. cbn. rewrite Hjson. cbn.
  rewrite (status_200 _ Hstatus). cbn. rewrite Hv.
  destruct v; try discriminate; reflexivity.
Qed.

Lemma expires_in_must_be_a_number_witness :
  raised_message (get_graph_token Canned.SCOPE "contoso.onmicrosoft.com" "id" "secret")
    (Canned.answering 200
       (PyDict [("access_token", PyStr "eyJ0"); ("expires_in", PyStr "3599")])
       1700000000%float)
    = Some "Error during token retrieval: unsupported operand type(s) for +: 'float' and 'str'".
Proof.
  apply (expires_in_must_be_a_number Canned.SCOPE
           (Canned.answering 200
              (PyDict [("access_token", PyStr "eyJ0"); ("expires_in", PyStr "3599")])
              1700000000%float)
           "contoso.onmicrosoft.com" "id" "secret" (mkResponse 200 _) _ _ (PyStr "3599")
           eq_refl eq_refl eq_refl eq_refl eq_refl eq_refl).
Defined.

(** ** Where credentials and paths travel *)

(** X9.  The client id and secret reach the token endpoint in the form body
    only: whatever they are, the token request is a POST to the same URL with
    the same single header, and its body is the encoded form of grant type,
    client id, client secret and scope, in that order.  The bearer token
    reaches Graph in the [Authorization] header only: whatever it is, each
    Graph operation sends a GET without a body to the same URL. *)
Theorem credentials_stay_out_of_urls :
  forall (SCOPE : string) (w : World)
         (tenant_domain client_id client_secret client_id' client_secret'
            tenant site site_id drive_id file_name token token' : string)
         (base_path category : option string),
    (map url (requests (get_graph_token SCOPE tenant_domain client_id client_secret) w)
       = map url (requests (get_graph_token SCOPE tenant_domain client_id' client_secret') w)
     /\
     Forall (fun r =>
               method r = "POST" /\
               headers r = [("Content-Type", "application/x-www-form-urlencoded")] /\
               body r = Some (urlencode w [("grant_type", "client_credentials");
                                           ("client_id", client_id);
                                           ("client_secret", client_secret);
                                           ("scope", SCOPE)]))
            (requests (get_graph_token SCOPE tenant_domain client_id client_secret) w))
    /\
    (map url (requests (get_site tenant site token) w)
       = map url (requests (get_site tenant site token') w) /\
     map url (requests (get_drives site_id token) w)
       = map url (requests (get_drives site_id token') w) /\
     map url (requests (get_children drive_id token base_path category) w)
       = map url (requests (get_children drive_id token' base_path category) w) /\
     map url (requests (get_file drive_id token file_name base_path) w)
       = map url (requests (get_file drive_id token' file_name base_path) w))
    /\
    Forall (fun r =>
              method r = "GET" /\ body r = None /\
              headers r = [("Accept", "application/json");
                           ("Authorization", "Bearer " ++ token)])
           (requests (get_site tenant site token) w
              ++ requests (get_drives site_id token) w
              ++ requests (get_children drive_id token base_path category) w
              ++ requests (get_file drive_id token file_name base_path) w)%list.
Proof.
  intros.
  rewrite !requests_get_graph_token, !requests_get_site, !requests_get_drives.
  destruct (bad_base_path base_path) eqn:Hpath.
  - unfold get_children, get_file. rewrite Hpath.
    repeat apply conj; try reflexivity; repeat constructor.
  - rewrite !(requests_get_children _ _ _ _ _ Hpath), !(requests_get_file _ _ _ _ _ Hpath).
    repeat apply conj; try reflexivity; repeat constructor.
Qed.

Lemma string_app_assoc (a b c : string) : (a ++ b) ++ c = a ++ (b ++ c).
Proof. induction a as [|x a IH]; cbn; [reflexivity | now rewrite IH]. Qed.

Lemma stem_assoc (pre d mid q tail : string) :
  pre ++ d ++ mid ++ (":" ++ q ++ ":") ++ tail
  = (pre ++ d ++ (mid ++ ":") ++ q ++ ":") ++ tail.
Proof. rewrite !string_app_assoc. reflexivity. Qed.

Lemma file_path_accepted (base_path : option string) (file_name : string) :
  bad_base_path base_path = false ->
  String.prefix "/" (file_path base_path file_name) = true.
Proof.
  unfold bad_base_path, file_path. destruct base_path as [p|].
  - intros H. apply negb_false_iff in H. destruct p as [|c p]; [discriminate|].
    cbn -[Ascii.ascii_dec] in H |- *. destruct (Ascii.ascii_dec "/" c); [|discriminate].
    now destruct (p ++ String "/" file_name).
  - intros _. cbn -[Ascii.ascii_dec].
    destruct (Ascii.ascii_dec "/" "/") as [_|N]; [now destruct file_name | now elim N].
Qed.

(** X10.  A file fetch and a listing address items the same way.  With an
    accepted base path, [get_file] requests the content of the item at
    [(base_path or "") + "/" + file_name]; that path always starts with "/",
    so [get_children] accepts it as a base path, and then requests the
    children of the very same item. *)
Theorem file_and_listing_address_the_same_item :
  forall (w : World) (drive_id token file_name : string)
         (base_path category : option string),
    bad_base_path base_path = false ->
    bad_base_path (Some (file_path base_path file_name)) = false /\
    map url (requests (get_file drive_id token file_name base_path) w)
      = [item_stem drive_id (file_path base_path file_name) ++ "/content"] /\
    map url (requests (get_children drive_id token
                         (Some (file_path base_path file_name)) category) w)
      = [item_stem drive_id (file_path base_path file_name) ++ "/children"].
Proof.
  intros w drive_id token file_name base_path category Hpath.
  assert (Hq : bad_base_path (Some (file_path base_path file_name)) = false).
  { cbn [bad_base_path]. now rewrite (file_path_accepted _ _ Hpath). }
  split; [exact Hq|].
  rewrite (requests_get_file _ _ _ _ _ Hpath), (requests_get_children _ _ _ _ _ Hq).
  cbn [map]. split; apply (f_equal (fun u => [u])).
  - exact (stem_assoc "https://graph.microsoft.com/v1.0/drives/" drive_id "/root"
             (file_path base_path file_name) "/content").
  - exact (stem_assoc "https://graph.microsoft.com/v1.0/drives/" drive_id "/root"
             (file_path base_path file_name) "/children").
Qed.

Lemma file_and_listing_address_the_same_item_witness :
  let w := Canned.unreachable 0%float in
  bad_base_path (Some "/Reports/2024") = false /\
  map url (requests (get_file "d1" "tok" "2024" (Some "/Reports")) w)
    = ["https://graph.microsoft.com/v1.0/drives/d1/root:/Reports/2024:/content"] /\
  map url (requests (get_children "d1" "tok" (Some "/Reports/2024") None) w)
    = ["https://graph.microsoft.com/v1.0/drives/d1/root:/Reports/2024:/children"].
Proof.
  intros w.
  apply (file_and_listing_address_the_same_item w "d1" "tok" "2024" (Some "/Reports")
           None).
  reflexivity.
Defined.

(** ** The decorator [log_execution] *)

Lemma string_app_nil (s : string) : s ++ "" = s.
Proof. induction s as [|c s IH]; cbn; [reflexivity | now rewrite IH]. Qed.

Lemma contains_refl (s : string) : contains s s.
Proof. exists "", "". cbn. now rewrite string_app_nil. Qed.

Lemma contains_within (a b s sub : string) :
  contains s sub -> contains (a ++ s ++ b) sub.
Proof.
  intros (before & after & ->). exists (a ++ before), (after ++ b).
  now rewrite !string_app_assoc.
Qed.

Lemma contains_trans (s mid sub : string) :
  contains s mid -> contains mid sub -> contains s sub.
Proof.
  intros (a & b & ->) H. now apply contains_within.
Qed.

Lemma contains_app_l (s t sub : string) : contains s sub -> contains (s ++ t) sub.
Proof. intros H. apply (contains_within "" t). exact H. Qed.

Lemma contains_app_r (s t sub : string) : contains t sub -> contains (s ++ t) sub.
Proof.
  intros H. rewrite <- (string_app_nil t). apply (contains_within s ""). exact H.
Qed.

Lemma contains_join (sep part : string) (parts : list string) :
  In part parts -> contains (join sep parts) part.
Proof.
  induction parts as [|p parts IH]; [intros []|].
  intros [->|Hin].
  - destruct parts; cbn [join]; [apply contains_refl | apply contains_app_l, contains_refl].
  - destruct parts as [|p' parts]; [destruct Hin|].
    change (join sep (p :: p' :: parts)) with (p ++ sep ++ join sep (p' :: parts)).
    apply contains_app_r, contains_app_r, IH, Hin.
Qed.

Lemma contains_tuple_repr (w : World) (a : py) (args : list py) :
  In a args -> contains (tuple_repr w args) (py_repr w a).
Proof.
  intros Hin. unfold tuple_repr.
  destruct args as [|x [|y rest]]; [destruct Hin| |].
  - destruct Hin as [->|[]]. apply (contains_within "(" ",)"), contains_refl.
  - apply (contains_within "(" ")"), contains_join, in_map, Hin.
Qed.

(** X11.  A function wrapped by [log_execution] behaves as the function: it
    issues the same requests and returns or raises the same.  Before the call
    it prints one line, whether the call then raises or not, and that line
    contains the function's name and the [repr] of every positional and every
    keyword argument, credentials included. *)
Theorem log_execution_is_transparent_and_prints_arguments :
  forall (A : Type) (w : World) (name : string) (func : list py -> dict -> io A)
         (args : list py) (kwargs : dict),
    snd (log_execution name func args kwargs w) = func args kwargs w /\
    exists line,
      fst (log_execution name func args kwargs w) = [line] /\
      contains line name /\
      (forall a, In a args -> contains line (py_repr w a)) /\
      (forall k v, In (k, v) kwargs -> contains line (py_repr w v)).
Proof.
  intros A w name func args kwargs. split; [reflexivity|].
  exists (execution_line w name args kwargs). split; [reflexivity|].
  unfold execution_line. repeat apply conj.
  - apply (contains_within "Executing " _ name), contains_refl.
  - intros a Hin. apply contains_app_r, contains_app_r, contains_app_r, contains_app_l.
    now apply contains_tuple_repr.
  - intros k v Hin. do 5 apply contains_app_r.
    change (py_repr w (PyDict kwargs))
      with ("{" ++ join ", " (map (fun kv : string * py =>
                                    let (k0, x) := kv in
                                    repr_str w k0 ++ ": " ++ py_repr w x) kwargs) ++ "}").
    apply (contains_within "{" "}").
    apply (contains_trans _ (repr_str w k ++ ": " ++ py_repr w v)).
    + apply contains_join.
      apply (in_map (fun kv : string * py =>
                       let (k0, x) := kv in repr_str w k0 ++ ": " ++ py_repr w x)
                    kwargs (k, v) Hin).
    + apply contains_app_r, contains_app_r, contains_refl.
Qed.

(** A decorated call with the three credentials as positional arguments. *)
Example log_line_of_token_call :
  fst (log_execution "get_graph_token"
         (fun _ _ => get_graph_token Canned.SCOPE "contoso.onmicrosoft.com" "id" "s3cret")
         [PyStr "contoso.onmicrosoft.com"; PyStr "id"; PyStr "s3cret"] []
         Canned.tenant_world)
  = ["Executing get_graph_token with args: ('contoso.onmicrosoft.com', 'id', 's3cret'), kwargs: {}"].
Proof. vm_compute. reflexivity. Qed.

(** ** Bodies that are JSON but not objects *)

(** X12.  The decoded body is used as a [dict] without a check.  When it is
    any other JSON value (an array, a string, a number, a boolean, null),
    [get_graph_token] raises on every status, and [get_site], [get_drives]
    and [get_children] raise on status 200, each with its label followed by
    the interpreter's text for the missing [get] attribute. *)
Theorem body_must_be_an_object :
  forall (SCOPE : string) (w : World)
         (tenant_domain client_id client_secret tenant site site_id drive_id token : string)
         (base_path category : option string)
         (response : Response) (text : string) (response_data : py),
    decode_utf8 w (data response) = Ok text ->
    json_loads w text = Ok response_data ->
    is_object response_data = false ->
    (pool_request w (token_request SCOPE w tenant_domain client_id client_secret)
       = Ok response ->
     raised_message (get_graph_token SCOPE tenant_domain client_id client_secret) w
       = Some ("Error during token retrieval: '" ++ type_name response_data
                 ++ "' object has no attribute 'get'"))
    /\
    (status response = 200 ->
     (pool_request w (site_request tenant site token) = Ok response ->
      raised_message (get_site tenant site token) w
        = Some ("Invalid Site: '" ++ type_name response_data
                  ++ "' object has no attribute 'get'")) /\
     (pool_request w (drives_request site_id token) = Ok response ->
      raised_message (get_drives site_id token) w
        = Some ("Invalid Site: '" ++ type_name response_data
                  ++ "' object has no attribute 'get'")) /\
     (bad_base_path base_path = false ->
      pool_request w (children_request drive_id token base_path) = Ok response ->
      raised_message (get_children drive_id token base_path category) w
        = Some ("Invalid Site: '" ++ type_name response_data
                  ++ "' object has no attribute 'get'"))).
Proof.
  intros SCOPE w tenant_domain client_id client_secret tenant site site_id drive_id
         token base_path category response text response_data Hdec Hjson Hkind.
  unfold raised_message. split; [|intros Hstatus; repeat apply conj].
  - intros Hreq. unfold get_graph_token. rewrite outcome_try_reraise.
    unfold get_graph_token_try. run_io.
    rewrite Hreq. cbn. rewrite Hdec. cbn. rewrite Hjson. cbn.
    destruct (negb (status response =? 200));
      destruct response_data; try discriminate; reflexivity.
  - intros Hreq. unfold get_site. rewrite outcome_try_reraise.
    unfold get_site_try. run_io.
    rewrite Hreq. cbn. rewrite Hdec. cbn. rewrite Hjson. cbn.
    rewrite (status_200 _ Hstatus).
    destruct response_data; try discriminate; reflexivity.
  - intros Hreq. unfold get_drives. rewrite outcome_try_reraise.
    unfold get_drives_try. run_io.
    rewrite Hreq. cbn. rewrite Hdec. cbn. rewrite Hjson. cbn.
    rewrite (status_200 _ Hstatus).
    destruct response_data; try discriminate; reflexivity.
  - intros Hpath Hreq. unfold get_children. rewrite Hpath, outcome_try_reraise.
    unfold get_children_try. run_io.
    rewrite Hreq. cbn. rewrite Hdec. cbn. rewrite Hjson. cbn.
    rewrite (status_200 _ Hstatus).
    destruct response_data; try discriminate; reflexivity.
Qed.

Lemma body_must_be_an_object_witness :
  raised_message (get_graph_token Canned.SCOPE "contoso.onmicrosoft.com" "id" "secret")
    (Canned.answering 500 (PyList []) 0%float)
    = Some "Error during token retrieval: 'list' object has no attribute 'get'"
  /\
  raised_message (get_drives "abc123" "tok")
    (Canned.answering 200 (PyList [PyDict [("id", PyStr "d1")]]) 0%float)
    = Some "Invalid Site: 'list' object has no attribute 'get'".
Proof.
  split.
  - apply (proj1 (body_must_be_an_object Canned.SCOPE
             (Canned.answering 500 (PyList []) 0%float)
             "contoso.onmicrosoft.com" "id" "secret" "" "" "" "" "" None None
             (Canned.json_response 500 (PyList [])) _ (PyList [])
             eq_refl eq_refl eq_refl)).
    reflexivity.
  - destruct (body_must_be_an_object Canned.SCOPE
             (Canned.answering 200 (PyList [PyDict [("id", PyStr "d1")]]) 0%float)
             "" "" "" "" "" "abc123" "" "tok" None None
             (Canned.json_response 200 (PyList [PyDict [("id", PyStr "d1")]])) _
             (PyList [PyDict [("id", PyStr "d1")]])
             eq_refl eq_refl eq_refl) as [_ H200].
    destruct (H200 eq_refl) as (_ & Hdrives & _).
    apply Hdrives. reflexivity.
Defined.

(** ** Slashes in paths *)

(** X13.  Paths are pasted together as they come.  When the accepted base
    path of [get_file] ends in "/", the URL requested has two slashes in a row
    before the file name; nothing strips or merges them. *)
Theorem trailing_slash_is_doubled :
  forall (w : World) (drive_id token file_name p : string),
    String.prefix "/" (p ++ "/") = true ->
    exists r,
      requests (get_file drive_id token file_name (Some (p ++ "/"))) w = [r] /\
      contains (url r) (p ++ "//" ++ file_name).
Proof.
  intros w drive_id token file_name p Hp.
  assert (Hpath : bad_base_path (Some (p ++ "/")) = false)
    by (cbn [bad_base_path]; now rewrite Hp).
  eexists. split; [exact (requests_get_file _ _ _ _ _ Hpath)|].
  unfold file_request. cbn [url].
  do 3 apply contains_app_r. apply contains_app_l.
  exists ":", ":". rewrite !string_app_assoc. reflexivity.
Qed.

Lemma trailing_slash_is_doubled_witness :
  exists r,
    requests (get_file "d1" "tok" "q1.pdf" (Some ("/Reports" ++ "/")))
             (Canned.unreachable 0%float) = [r] /\
    contains (url r) ("/Reports" ++ "//" ++ "q1.pdf").
Proof.
  apply (trailing_slash_is_doubled (Canned.unreachable 0%float) "d1" "tok" "q1.pdf"
           "/Reports").
  reflexivity.
Defined.
